(** * bitespeed-client: the contact-service client and the page that calls it

    A shallow embedding of [src/services/api.ts] ([checkHealth],
    [identifyContact]) and of the submit path of [src/pages/IdentifyPage.tsx]
    ([formSchema], [onSubmit]).

    - JavaScript values are an inductive type; an object is the list of its
      own properties in enumeration order, which is the order
      [JSON.stringify] writes them in.
    - An [async] function is a state-passing computation that ends
      [Fulfilled] or [Rejected]; [await] is the bind of that monad and
      [try]/[catch]/[finally] are combinators on it.
    - The network behind [fetch] is a parameter: a transition function on an
      arbitrary transport state, so that a mock which answers differently
      on each call is covered as well as one that always answers the same. *)

From Stdlib Require Import ZArith String Ascii List Bool Lia.
From Stdlib Require Import DecimalString DecimalZ.
Import ListNotations.

#[local] Open Scope string_scope.
#[local] Open Scope Z_scope.
#[local] Set Warnings "-register-all".

(** ** The JavaScript the client relies on *)

Module Js.

(** Values. [Number] carries integral numbers only: the client compares
    an HTTP status with [===] and prints it, and does no other
    arithmetic. *)
Inductive Value : Type :=
| VUndefined
| VNull
| VBoolean (b : bool)
| VNumber (n : Z)
| VString (s : string)
| VArray (items : list Value)
| VObject (props : list (string * Value)).

(** [o.k]: the value of property [k], [undefined] when [o] has none. *)
Fixpoint lookup (k : string) (props : list (string * Value)) : Value :=
  match props with
  | [] => VUndefined
  | (k', v) :: rest => if String.eqb k' k then v else lookup k rest
  end.

Definition Get (o : Value) (k : string) : Value :=
  match o with
  | VObject props => lookup k props
  | _ => VUndefined
  end.

(** Truthiness, as [!v], [v || w] and [if (v)] use it. *)
Definition ToBoolean (v : Value) : bool :=
  match v with
  | VUndefined | VNull => false
  | VBoolean b => b
  | VNumber n => negb (n =? 0)
  | VString s => negb (String.eqb s "")
  | VArray _ | VObject _ => true
  end.

(** [v || w] yields [v] itself when it is truthy, else [w]. *)
Definition or (v w : Value) : Value := if ToBoolean v then v else w.

(** [`${n}`] for an integral number: decimal digits, a leading [-] when
    negative. *)
Definition Number_toString (n : Z) : string :=
  NilEmpty.string_of_int (Z.to_int n).

(** Thrown values: error objects, [new Error(m)] among them. *)
Record Error : Type := mkError { name : string; message : string }.

Definition new_Error (m : string) : Error :=
  {| name := "Error"; message := m |}.

(** *** JSON.stringify *)

Definition dquote : ascii := "034"%char.
Definition backslash : ascii := "092"%char.

(** The lower-case hexadecimal digit of a number below 16. *)
Definition hex_digit (n : nat) : ascii :=
  ascii_of_nat (if n <? 10 then 48 + n else 87 + n)%nat.

(** [\uXXXX] for a code unit below 256. *)
Definition UnicodeEscape (c : ascii) : string :=
  let n := nat_of_ascii c in
  String backslash
    (String "u"
       (String "0"
          (String "0"
             (String (hex_digit (n / 16))
                (String (hex_digit (n mod 16)) EmptyString)))))%nat.

(** One character of a quoted string: the two-character escapes of the
    standard's table, [\u00XX] for the other control characters, the
    character itself otherwise. A [string] here is the UTF-8 text of the
    JavaScript string, so bytes from 128 up pass through unchanged. *)
Definition quote_char (c : ascii) : string :=
  let esc (x : ascii) := String backslash (String x EmptyString) in
  match nat_of_ascii c with
  | 8 => esc "b"%char
  | 9 => esc "t"%char
  | 10 => esc "n"%char
  | 12 => esc "f"%char
  | 13 => esc "r"%char
  | 34 => esc dquote
  | 92 => esc backslash
  | n => if (n <? 32)%nat then UnicodeEscape c else String c EmptyString
  end%nat.

Fixpoint quote_chars (s : string) : string :=
  match s with
  | EmptyString => EmptyString
  | String c rest => quote_char c ++ quote_chars rest
  end.

Definition QuoteJSONString (s : string) : string :=
  String dquote (quote_chars s ++ String dquote EmptyString).

(** [partial.join(",")] *)
Fixpoint join (sep : string) (parts : list string) : string :=
  match parts with
  | [] => ""
  | [p] => p
  | p :: rest => p ++ sep ++ join sep rest
  end.

(** [SerializeJSONProperty]: [None] is the standard's [undefined] result.
    An object property whose value serialises to [undefined] is left
    out; such an array element is written [null]. *)
Fixpoint SerializeJSONProperty (v : Value) : option string :=
  match v with
  | VUndefined => None
  | VNull => Some "null"
  | VBoolean b => Some (if b then "true" else "false")
  | VNumber n => Some (Number_toString n)
  | VString s => Some (QuoteJSONString s)
  | VArray items =>
      Some ("[" ++ join ","
              (map (fun x => match SerializeJSONProperty x with
                             | Some s => s
                             | None => "null"
                             end) items) ++ "]")
  | VObject props =>
      Some ("{" ++ join ","
              (flat_map (fun kv => match SerializeJSONProperty (snd kv) with
                                   | Some s => [QuoteJSONString (fst kv) ++ ":" ++ s]
                                   | None => []
                                   end) props) ++ "}")
  end.

Definition JSON_stringify (v : Value) : option string :=
  SerializeJSONProperty v.

(** *** Promises and async functions *)

Inductive Outcome (A : Type) : Type :=
| Fulfilled (a : A)
| Rejected (e : Error).
Arguments Fulfilled {A} a.
Arguments Rejected {A} e.

(** The body of an [async] function over a state [S]. *)
Definition Async (S A : Type) : Type := S -> Outcome A * S.

Definition ret {S A} (a : A) : Async S A := fun s => (Fulfilled a, s).

Definition throw {S A} (e : Error) : Async S A := fun s => (Rejected e, s).

Definition bind {S A B} (m : Async S A) (k : A -> Async S B) : Async S B :=
  fun s =>
    match m s with
    | (Fulfilled a, s') => k a s'
    | (Rejected e, s') => (Rejected e, s')
    end.

(** [try { m } catch (error) { h error }] *)
Definition try_catch {S A} (m : Async S A) (h : Error -> Async S A)
  : Async S A :=
  fun s =>
    match m s with
    | (Fulfilled a, s') => (Fulfilled a, s')
    | (Rejected e, s') => h e s'
    end.

(** [try { m } finally { f }]: [f] runs on both exits and the outcome of
    [m] stands unless [f] itself throws. *)
Definition try_finally {S A} (m : Async S A) (f : Async S unit)
  : Async S A :=
  fun s =>
    match m s with
    | (r, s') =>
        match f s' with
        | (Fulfilled _, s'') => (r, s'')
        | (Rejected e, s'') => (Rejected e, s'')
        end
    end.

End Js.

Declare Scope async_scope.
Delimit Scope async_scope with async.
Notation "x <- m ;; k" := (Js.bind m (fun x => k))
  (at level 61, m at next level, right associativity) : async_scope.
Notation "m ;; k" := (Js.bind m (fun _ => k))
  (at level 61, right associativity) : async_scope.

(** ** The Fetch API, as far as the client uses it *)

Module Fetch.

(** What [fetch(url, init)] hands to the network. *)
Record Request : Type := mkRequest {
  url : string;
  method : string;
  headers : list (string * string);
  body : option string
}.

(** A response: its status and what [response.json()] settles to, the
    parsed body or the parse failure. *)
Record Response : Type := mkResponse {
  status : Z;
  json : Js.Outcome Js.Value
}.

(** [response.ok]: the status is in the range 200 to 299. *)
Definition ok (r : Response) : bool :=
  (200 <=? status r) && (status r <=? 299).

End Fetch.

(** ** src/services/api.ts *)

Module Api.
Import Js Fetch.
#[local] Open Scope async_scope.

Definition BASE_URL : string := "https://aryan-bitespeed.onrender.com/api".

(** What the module touches outside itself: the transport behind [fetch],
    the requests handed to it so far (oldest first) and the lines written
    with [console.error]. The module has no variable of its own besides the
    constant [BASE_URL]. *)
Record World (T : Type) : Type := mkWorld {
  net : T;
  sent : list Request;
  console : list (string * Error)
}.
Arguments mkWorld {T} net sent console.
Arguments net {T} w.
Arguments sent {T} w.
Arguments console {T} w.

Section Client.

Context {T : Type}.

(** The transport: given a request and its own state, it settles the
    promise of [fetch] with a response or rejects it, and moves on. *)
Variable transport : Request -> T -> Outcome Response * T.

Definition fetch (rq : Request) : Async (World T) Response :=
  fun w =>
    let (r, n) := transport rq (net w) in
    (r, {| net := n; sent := sent w ++ [rq]; console := console w |}).

Definition console_error (label : string) (error : Error)
  : Async (World T) unit :=
  fun w =>
    (Fulfilled tt,
     {| net := net w; sent := sent w;
        console := console w ++ [(label, error)] |}).

(** [await response.json()] *)
Definition Response_json (response : Response) : Async (World T) Value :=
  fun w => (json response, w).

Definition health_request : Request :=
  {| url := BASE_URL ++ "/health";
     method := "GET";
     headers := [("Content-Type", "application/json")];
     body := None |}.

Definition checkHealth_try : Async (World T) bool :=
  response <- fetch health_request ;;
  ret ((status response =? 200) || (status response =? 201)).

Definition checkHealth : Async (World T) bool :=
  try_catch checkHealth_try
    (fun error =>
       console_error "Health check failed:" error ;;
       ret false).

Definition identify_request (data : Value) : Request :=
  {| url := BASE_URL ++ "/identify";
     method := "POST";
     headers := [("Content-Type", "application/json")];
     body := JSON_stringify data |}.

Definition identifyContact_try (data : Value) : Async (World T) Value :=
  response <- fetch (identify_request data) ;;
  (if negb (ok response)
   then throw (new_Error ("HTTP error! status: "
                            ++ Number_toString (status response)))
   else ret tt) ;;
  result <- Response_json response ;;
  ret result.

Definition identifyContact (data : Value) : Async (World T) Value :=
  try_catch (identifyContact_try data)
    (fun error =>
       console_error "API call failed:" error ;;
       throw error).

End Client.

(** [IdentifyRequest]: an object whose properties are [email] and
    [phoneNumber], each at most once and each a string or [undefined]. *)
Definition optional_string (v : Value) : bool :=
  match v with
  | VUndefined | VString _ => true
  | _ => false
  end.

Fixpoint distinct_keys (props : list (string * Value)) : bool :=
  match props with
  | [] => true
  | (k, _) :: rest =>
      negb (existsb (fun kv => String.eqb (fst kv) k) rest)
      && distinct_keys rest
  end.

Definition IdentifyRequest (data : Value) : bool :=
  match data with
  | VObject props =>
      forallb (fun kv =>
                 (String.eqb (fst kv) "email"
                  || String.eqb (fst kv) "phoneNumber")
                 && optional_string (snd kv)) props
      && distinct_keys props
  | _ => false
  end.

End Api.

(** ** src/pages/IdentifyPage.tsx: the form schema and the submit handler *)

Module IdentifyPage.
Import Js Fetch.
#[local] Open Scope async_scope.

(** [FormData], the type inferred from [formSchema]: an object whose
    [email] and [phoneNumber] are each a string or [undefined]. *)
Definition FormData (data : Value) : bool :=
  match data with
  | VObject _ =>
      Api.optional_string (Get data "email")
      && Api.optional_string (Get data "phoneNumber")
  | _ => false
  end.

(** The function given to [.refine]: [data.email || data.phoneNumber].
    The schema accepts the data when the value it returns is truthy. *)
Definition formSchema_refine (data : Value) : Value :=
  Js.or (Get data "email") (Get data "phoneNumber").

Definition formSchema_accepts (data : Value) : bool :=
  FormData data && ToBoolean (formSchema_refine data).

Inductive ToastKind : Type := success | error.

(** The component's state, the toasts shown so far (oldest first) and the
    world the API client runs in. *)
Record Page (T : Type) : Type := mkPage {
  env : Api.World T;
  response : option Value;
  isLoading : bool;
  toasts : list (ToastKind * string)
}.
Arguments mkPage {T} env response isLoading toasts.
Arguments env {T} p.
Arguments response {T} p.
Arguments isLoading {T} p.
Arguments toasts {T} p.

Section Component.

Context {T : Type}.
Variable transport : Request -> T -> Outcome Response * T.

(** [await m] for a call [m] into the API client. *)
Definition call {A} (m : Async (Api.World T) A) : Async (Page T) A :=
  fun p =>
    let (r, w) := m (env p) in
    (r, {| env := w; response := response p;
           isLoading := isLoading p; toasts := toasts p |}).

Definition toast (kind : ToastKind) (text : string) : Async (Page T) unit :=
  fun p =>
    (Fulfilled tt,
     {| env := env p; response := response p;
        isLoading := isLoading p; toasts := toasts p ++ [(kind, text)] |}).

Definition setResponse (r : option Value) : Async (Page T) unit :=
  fun p =>
    (Fulfilled tt,
     {| env := env p; response := r;
        isLoading := isLoading p; toasts := toasts p |}).

Definition setIsLoading (b : bool) : Async (Page T) unit :=
  fun p =>
    (Fulfilled tt,
     {| env := env p; response := response p;
        isLoading := b; toasts := toasts p |}).

Definition onSubmit (data : Value) : Async (Page T) unit :=
  if negb (ToBoolean (Get data "email"))
     && negb (ToBoolean (Get data "phoneNumber"))
  then
    toast error "Please provide at least one field" ;;
    ret tt
  else
    setIsLoading true ;;
    try_finally
      (try_catch
         (result <- call (Api.identifyContact transport data) ;;
          setResponse (Some result) ;;
          toast success "Contact identified")
         (fun _ =>
            toast error "Failed to identify contact" ;;
            setResponse None))
      (setIsLoading false).

End Component.

End IdentifyPage.

(** ** What the specification says, in its own terms *)

Module Spec.
Import Js Fetch.

(** The health verdict for a transport outcome: healthy exactly for a
    response with status 200 or 201. *)
Definition healthy (o : Outcome Response) : bool :=
  match o with
  | Fulfilled r =>
      if Z.eq_dec (status r) 200 then true
      else if Z.eq_dec (status r) 201 then true
      else false
  | Rejected _ => false
  end.

(** The result of identify for a transport outcome: the transport's own
    failure; a failure naming the status when it is outside 200..299; else
    whatever parsing the body gave, value or failure. *)
Definition identified (o : Outcome Response) : Outcome Value :=
  match o with
  | Rejected cause => Rejected cause
  | Fulfilled r =>
      if (status r <? 200) || (299 <? status r)
      then Rejected (new_Error ("HTTP error! status: "
                                  ++ Number_toString (status r)))
      else json r
  end.

(** A field that is present: a string, as opposed to missing or
    [undefined]. *)
Definition member (kv : string * Value) : list string :=
  match snd kv with
  | VString s => [QuoteJSONString (fst kv) ++ ":" ++ QuoteJSONString s]
  | _ => []
  end.

(** The JSON text of a request: its present fields and nothing else. *)
Definition request_json (data : Value) : string :=
  match data with
  | VObject props => "{" ++ join "," (flat_map member props) ++ "}"
  | _ => ""
  end.

Definition nonempty_string (v : Value) : bool :=
  match v with
  | VString EmptyString => false
  | VString _ => true
  | _ => false
  end.

(** "At least one of email or phoneNumber is a non-empty string." *)
Definition has_field (data : Value) : bool :=
  nonempty_string (Get data "email")
  || nonempty_string (Get data "phoneNumber").

(** The status an error names: the number after [HTTP error! status: ]. *)
Fixpoint strip_prefix (p s : string) : option string :=
  match p, s with
  | EmptyString, _ => Some s
  | String a p', String b s' =>
      if Ascii.eqb a b then strip_prefix p' s' else None
  | String _ _, EmptyString => None
  end.

Definition status_named (e : Error) : option Z :=
  match strip_prefix "HTTP error! status: " (message e) with
  | Some digits => option_map Z.of_int (NilEmpty.int_of_string digits)
  | None => None
  end.

(** Reading a JSON string literal back, as the receiving side does: the
    text after the opening quote, up to the closing quote. Gives the
    string and the rest of the input. *)
Definition unhex (c : ascii) : option nat :=
  let n := nat_of_ascii c in
  (if (48 <=? n) && (n <=? 57) then Some (n - 48)
  else if (97 <=? n) && (n <=? 102) then Some (n - 87)
  else None)%nat.

Definition unescape (c : ascii) : option ascii :=
  match nat_of_ascii c with
  | 98 => Some "008" | 116 => Some "009" | 110 => Some "010"
  | 102 => Some "012" | 114 => Some "013"
  | 34 => Some dquote | 92 => Some backslash | 47 => Some "/"
  | _ => None
  end%nat%char.

Definition push (c : option ascii) (r : option (string * string))
  : option (string * string) :=
  match c, r with
  | Some c, Some (s, rest) => Some (String c s, rest)
  | _, _ => None
  end.

Fixpoint read_chars (s : string) : option (string * string) :=
  match s with
  | EmptyString => None
  | String c rest =>
      if Ascii.eqb c dquote then Some (EmptyString, rest)
      else if Ascii.eqb c backslash then
        match rest with
        | String "u" (String "0" (String "0" (String h (String l rest')))) =>
            push (match unhex h, unhex l with
                  | Some a, Some b => Some (ascii_of_nat (16 * a + b))
                  | _, _ => None
                  end) (read_chars rest')
        | String e rest' => push (unescape e) (read_chars rest')
        | EmptyString => None
        end
      else if (nat_of_ascii c <? 32)%nat then None
      else push (Some c) (read_chars rest)
  end.

Definition read_string (s : string) : option (string * string) :=
  match s with
  | String c rest => if Ascii.eqb c dquote then read_chars rest else None
  | EmptyString => None
  end.

(** Reading a request body back, as the service does: an object whose
    members are string literals, a name, a colon and a value each, with
    commas between. It gives the members in the order written. [fuel]
    bounds the number of members read. *)
Definition expect (c : ascii) (s : string) : option string :=
  match s with
  | String c' rest => if Ascii.eqb c c' then Some rest else None
  | EmptyString => None
  end.

Definition read_member (s : string) : option ((string * string) * string) :=
  match read_string s with
  | Some (k, after_key) =>
      match expect ":" after_key with
      | Some after_colon =>
          match read_string after_colon with
          | Some (v, rest) => Some ((k, v), rest)
          | None => None
          end
      | None => None
      end
  | None => None
  end.

Fixpoint read_members (fuel : nat) (s : string)
  : option (list (string * string)) :=
  match fuel with
  | O => None
  | S fuel' =>
      match read_member s with
      | Some (m, String c rest) =>
          if Ascii.eqb c "," then
            option_map (cons m) (read_members fuel' rest)
          else if Ascii.eqb c "}" then
            match rest with
            | EmptyString => Some [m]
            | String _ _ => None
            end
          else None
      | _ => None
      end
  end.

Definition read_request (s : string) : option (list (string * string)) :=
  match s with
  | String c rest =>
      if Ascii.eqb c "{" then
        if String.eqb rest "}" then Some []
        else read_members (String.length rest) rest
      else None
  | EmptyString => None
  end.

(** The text of one member. *)
Definition member_text (m : string * string) : string :=
  QuoteJSONString (fst m) ++ ":" ++ QuoteJSONString (snd m).

(** The fields of a payload that are present, with their values. *)
Definition present_fields (data : Value) : list (string * string) :=
  match data with
  | VObject props =>
      flat_map (fun kv => match snd kv with
                          | VString s => [(fst kv, s)]
                          | _ => []
                          end) props
  | _ => []
  end.

(** [ContactResponse]: an object with a [contact] holding a numeric
    [primaryContactId] and three arrays of strings. *)
Definition strings (v : Value) : bool :=
  match v with
  | VArray items =>
      forallb (fun x => match x with VString _ => true | _ => false end) items
  | _ => false
  end.

Definition ContactResponse (v : Value) : bool :=
  let contact := Get v "contact" in
  match Get contact "primaryContactId" with
  | VNumber _ =>
      strings (Get contact "emails")
      && strings (Get contact "phoneNumbers")
      && strings (Get contact "secondaryContactIds")
  | _ => false
  end.

End Spec.

(** ** Mocked transports and sample data *)

Module Mock.
Import Js Fetch.

Definition contact_body : Value :=
  VObject
    [("contact",
      VObject [("primaryContactId", VNumber 1);
               ("emails", VArray [VString "a@x.com"]);
               ("phoneNumbers", VArray [VString "123"]);
               ("secondaryContactIds", VArray [])])].

(** A transport that gives every request the same answer. *)
Definition always (o : Outcome Response)
  : Request -> unit -> Outcome Response * unit :=
  fun _ n => (o, n).

(** The same response to every request: status [s], the sample body. *)
Definition answer (s : Z) : Request -> unit -> Outcome Response * unit :=
  always (Fulfilled {| status := s; json := Fulfilled contact_body |}).

Definition network_error : Error :=
  {| name := "TypeError"; message := "Failed to fetch" |}.

Definition syntax_error : Error :=
  {| name := "SyntaxError"; message := "Unexpected end of JSON input" |}.

(** A transport that plays a script, one answer per request, and fails
    like an unreachable network once the script is over. *)
Definition scripted
  : Request -> list (Outcome Response) -> Outcome Response * list (Outcome Response) :=
  fun _ script =>
    match script with
    | [] => (Rejected network_error, [])
    | o :: rest => (o, rest)
    end.

(** A transport that answers with the status the transport state holds. *)
Definition by_status (v : Outcome Value)
  : Request -> Z -> Outcome Response * Z :=
  fun _ s => (Fulfilled {| status := s; json := v |}, s).

Definition fresh {T} (n : T) : Api.World T :=
  {| Api.net := n; Api.sent := []; Api.console := [] |}.

Definition fresh_page {T} (n : T) : IdentifyPage.Page T :=
  {| IdentifyPage.env := fresh n; IdentifyPage.response := None;
     IdentifyPage.isLoading := false; IdentifyPage.toasts := [] |}.

End Mock.

(** ** JSON.stringify with an indentation *)

Module JsonText.
Import Js.

Definition newline : string := String "010" EmptyString.

Definition is_empty (s : string) : bool :=
  match s with
  | EmptyString => true
  | String _ _ => false
  end.

(** The text of an array or an object from the texts of its parts:
    [open] and [close] are the brackets, [stepback] the indentation of the
    enclosing line. Without parts it is the two brackets; without a gap
    the parts are joined by commas; with one, each part stands on a line
    of its own, indented by [stepback] and the gap. *)
Definition wrap (open close gap stepback : string) (parts : list string)
  : string :=
  match parts with
  | [] => open ++ close
  | _ :: _ =>
      if is_empty gap then open ++ join "," parts ++ close
      else
        let indent := stepback ++ gap in
        open ++ newline ++ indent
          ++ join ("," ++ newline ++ indent) parts
          ++ newline ++ stepback ++ close
  end.

(** [SerializeJSONProperty] with a gap, at the indentation [indent]. *)
Fixpoint Serialize (gap indent : string) (v : Value) : option string :=
  match v with
  | VUndefined => None
  | VNull => Some "null"
  | VBoolean b => Some (if b then "true" else "false")
  | VNumber n => Some (Number_toString n)
  | VString s => Some (QuoteJSONString s)
  | VArray items =>
      Some (wrap "[" "]" gap indent
              (map (fun x => match Serialize gap (indent ++ gap) x with
                             | Some s => s
                             | None => "null"
                             end) items))
  | VObject props =>
      Some (wrap "{" "}" gap indent
              (flat_map
                 (fun kv => match Serialize gap (indent ++ gap) (snd kv) with
                            | Some s =>
                                [QuoteJSONString (fst kv) ++ ":"
                                   ++ (if is_empty gap then "" else " ")
                                   ++ s]
                            | None => []
                            end) props))
  end.

(** [JSON.stringify(v, null, n)] for [n] from 0 to 10: the gap is [n]
    spaces. *)
Fixpoint spaces (n : nat) : string :=
  match n with
  | O => EmptyString
  | S n' => String " " (spaces n')
  end.

Definition JSON_stringify_space (v : Value) (n : nat) : option string :=
  Serialize (spaces (Nat.min 10 n)) EmptyString v.

(** Taking the insignificant white space out of a JSON text: outside
    string literals, spaces, tabs, line feeds and carriage returns go;
    inside, every character stays, and an escaped quote does not end the
    literal. *)
Definition is_space (c : ascii) : bool :=
  match nat_of_ascii c with
  | 9 | 10 | 13 | 32 => true
  | _ => false
  end%nat.

Fixpoint strip (in_string escaped : bool) (s : string) : string :=
  match s with
  | EmptyString => EmptyString
  | String c rest =>
      if in_string then
        if escaped then String c (strip true false rest)
        else if Ascii.eqb c backslash then String c (strip true true rest)
        else if Ascii.eqb c dquote then String c (strip false false rest)
        else String c (strip true false rest)
      else if Ascii.eqb c dquote then String c (strip true false rest)
      else if is_space c then strip false false rest
      else String c (strip false false rest)
  end.

Definition minify (s : string) : string := strip false false s.

Fixpoint all_chars (test : ascii -> bool) (s : string) : bool :=
  match s with
  | EmptyString => true
  | String c rest => test c && all_chars test rest
  end.

(** A character that is no white space and opens no string literal. *)
Definition plain_char (c : ascii) : bool :=
  negb (is_space c) && negb (Ascii.eqb c dquote).

(** [text] turns into [short] when the white space is taken out, whatever
    comes after it. *)
Definition shrinks (text short : string) : Prop :=
  forall rest : string,
    strip false false (text ++ rest) = (short ++ strip false false rest)%string.

(** The indented text and the compact text of a value go together: both
    are missing, or the first shrinks to the second. *)
Definition agree (gap indent : string) (v : Value) : Prop :=
  match Serialize gap indent v, SerializeJSONProperty v with
  | Some text, Some short => shrinks text short
  | None, None => True
  | _, _ => False
  end.

End JsonText.

(** ** src/pages/IdentifyPage.tsx: the rest of the component *)

Module Ui.
Import Js Fetch.
#[local] Open Scope async_scope.

(** The whole component: the part [onSubmit] works on, the two other
    state variables, the state of the form library behind [reset] and
    the state behind [navigator.clipboard]. *)
Record Component (T C F : Type) : Type := mkComponent {
  page : IdentifyPage.Page T;
  isHealthy : option bool;
  isExpanded : bool;
  form : F;
  clipboard : C
}.
Arguments mkComponent {T C F} page isHealthy isExpanded form clipboard.
Arguments page {T C F} c.
Arguments isHealthy {T C F} c.
Arguments isExpanded {T C F} c.
Arguments form {T C F} c.
Arguments clipboard {T C F} c.

Section Handlers.

Context {T C F : Type}.
Variable transport : Request -> T -> Outcome Response * T.

(** [navigator.clipboard.writeText]: it settles or rejects, and moves the
    clipboard on. *)
Variable writeText : string -> C -> Outcome unit * C.

(** [reset] of the form library. *)
Variable reset : F -> F.

(** A step that works on the part [onSubmit] works on. *)
Definition on_page {A} (m : Async (IdentifyPage.Page T) A)
  : Async (Component T C F) A :=
  fun s =>
    let (r, p) := m (page s) in
    (r, {| page := p; isHealthy := isHealthy s; isExpanded := isExpanded s;
           form := form s; clipboard := clipboard s |}).

Definition setIsHealthy (h : option bool) : Async (Component T C F) unit :=
  fun s =>
    (Fulfilled tt,
     {| page := page s; isHealthy := h; isExpanded := isExpanded s;
        form := form s; clipboard := clipboard s |}).

Definition setIsExpanded (b : bool) : Async (Component T C F) unit :=
  fun s =>
    (Fulfilled tt,
     {| page := page s; isHealthy := isHealthy s; isExpanded := b;
        form := form s; clipboard := clipboard s |}).

Definition form_reset : Async (Component T C F) unit :=
  fun s =>
    (Fulfilled tt,
     {| page := page s; isHealthy := isHealthy s; isExpanded := isExpanded s;
        form := reset (form s); clipboard := clipboard s |}).

Definition clipboard_writeText (text : string) : Async (Component T C F) unit :=
  fun s =>
    let (r, c) := writeText text (clipboard s) in
    (r, {| page := page s; isHealthy := isHealthy s;
           isExpanded := isExpanded s; form := form s; clipboard := c |}).

(** The effect run once on mount. *)
Definition performHealthCheck_try : Async (Component T C F) unit :=
  healthy <- on_page (IdentifyPage.call (Api.checkHealth transport)) ;;
  setIsHealthy (Some healthy) ;;
  if healthy
  then on_page (IdentifyPage.toast IdentifyPage.success "Backend connected")
  else on_page (IdentifyPage.toast IdentifyPage.error "Backend disconnected").

Definition performHealthCheck : Async (Component T C F) unit :=
  try_catch performHealthCheck_try
    (fun _ =>
       setIsHealthy (Some false) ;;
       on_page (IdentifyPage.toast IdentifyPage.error "Backend disconnected")).

Definition onSubmit (data : Value) : Async (Component T C F) unit :=
  on_page (IdentifyPage.onSubmit transport data).

Definition handleClear : Async (Component T C F) unit :=
  form_reset ;;
  on_page (IdentifyPage.setResponse None).

Definition formatJson (obj : Value) : option string :=
  JsonText.JSON_stringify_space obj 2.

(** The value of the state variable [response]: [null] until set. *)
Definition response_value (s : Component T C F) : Value :=
  match IdentifyPage.response (page s) with
  | Some v => v
  | None => VNull
  end.

(** A string argument as the platform takes it: [undefined] is turned
    into the text [undefined]. *)
Definition as_text (t : option string) : string :=
  match t with
  | Some text => text
  | None => "undefined"
  end.

Definition handleCopyResponse : Async (Component T C F) unit :=
  fun s =>
    if ToBoolean (response_value s)
    then
      try_catch
        (clipboard_writeText (as_text (formatJson (response_value s))) ;;
         on_page (IdentifyPage.toast IdentifyPage.success
                    "Response copied to clipboard"))
        (fun _ =>
           on_page (IdentifyPage.toast IdentifyPage.error
                      "Failed to copy response"))
        s
    else ret tt s.

Definition toggleExpanded : Async (Component T C F) unit :=
  fun s => setIsExpanded (negb (isExpanded s)) s.

End Handlers.

(** *** What the component renders, as far as it depends on the state *)

Inductive Badge : Type := Connected | Disconnected.

(** The line under the title: nothing while [isHealthy] is [null]. *)
Definition health_badge {T C F} (s : Component T C F) : option Badge :=
  match isHealthy s with
  | None => None
  | Some true => Some Connected
  | Some false => Some Disconnected
  end.

(** The submit button: disabled and labelled [Searching...] while
    loading. *)
Definition submit_disabled {T C F} (s : Component T C F) : bool :=
  IdentifyPage.isLoading (page s).

Definition submit_label {T C F} (s : Component T C F) : string :=
  if IdentifyPage.isLoading (page s) then "Searching..." else "Identify Contact".

(** The right-hand side: the formatted response, or the placeholder
    asking for contact details. *)
Inductive Panel : Type :=
| Formatted (text : string)
| Placeholder.

Definition response_panel {T C F} (s : Component T C F) : Panel :=
  if ToBoolean (response_value s)
  then Formatted (as_text (formatJson (response_value s)))
  else Placeholder.

(** The copy button, the expand button and the [Contact Found] badge. *)
Definition response_tools {T C F} (s : Component T C F) : bool :=
  ToBoolean (response_value s).

(** The large-screen grid: one column when expanded, else two. *)
Definition grid_columns {T C F} (s : Component T C F) : nat :=
  if isExpanded s then 1%nat else 2%nat.

End Ui.

(** ** The entry point: the route table *)

Module Main.

Inductive Element : Type :=
| IdentifyPageElement
| Navigate (to : string) (replace : bool).

Definition routes : list (string * Element) :=
  [("/identify", IdentifyPageElement);
   ("*", Navigate "/identify" true)].

Section Router.

(** The router's test of a location against a route's path. *)
Variable matchPath : string -> string -> bool.

(** The element of the first route that matches; the table lists the
    specific path before the catch-all, which is also the order the
    router ranks them in. *)
Fixpoint pick (table : list (string * Element)) (pathname : string)
  : option Element :=
  match table with
  | [] => None
  | (path, element) :: rest =>
      if matchPath path pathname then Some element else pick rest pathname
  end.

(** Where the browser ends up from [pathname], following at most [fuel]
    redirects: the location at which the page itself is rendered. *)
Fixpoint settle (fuel : nat) (pathname : string) : option string :=
  match pick routes pathname with
  | Some IdentifyPageElement => Some pathname
  | Some (Navigate to _) =>
      match fuel with
      | O => None
      | S fuel' => settle fuel' to
      end
  | None => None
  end.

End Router.

End Main.

(** ** More mocks *)

Module MockUi.
Import Js Fetch.

(** A clipboard that keeps what was written last. *)
Definition clipboard_ok : string -> option string -> Outcome unit * option string :=
  fun text _ => (Fulfilled tt, Some text).

(** A clipboard that refuses every write. *)
Definition clipboard_denied : string -> option string -> Outcome unit * option string :=
  fun _ c =>
    (Rejected {| name := "NotAllowedError"; message := "Write permission denied." |},
     c).

(** A form whose state is the text of its two inputs; [reset] empties
    them. *)
Definition reset_inputs : string * string -> string * string :=
  fun _ => ("", "").

Definition mounted {T} (n : T) : Ui.Component T (option string) (string * string) :=
  {| Ui.page := Mock.fresh_page n;
     Ui.isHealthy := None;
     Ui.isExpanded := false;
     Ui.form := ("", "");
     Ui.clipboard := None |}.

(** A router test that takes [*] for everything and any other path for
    itself only. *)
Definition exact_or_splat (path pathname : string) : bool :=
  String.eqb path "*" || String.eqb path pathname.

End MockUi.

(** * Proofs *)

Import Js Fetch.

(** ** Running the client against a transport *)

Section ApiFacts.

Context {T : Type}.
Variable transport : Request -> T -> Outcome Response * T.

(** The worlds the two operations end in. *)
Definition after_fetch (rq : Request) (w : Api.World T) : Api.World T :=
  {| Api.net := snd (transport rq (Api.net w));
     Api.sent := Api.sent w ++ [rq];
     Api.console := Api.console w |}.

Definition logged (label : string) (e : Error) (w : Api.World T)
  : Api.World T :=
  {| Api.net := Api.net w;
     Api.sent := Api.sent w;
     Api.console := Api.console w ++ [(label, e)] |}.

Lemma fetch_run (rq : Request) (w : Api.World T) :
  Api.fetch transport rq w
  = (fst (transport rq (Api.net w)), after_fetch rq w).
Proof.
  unfold Api.fetch, after_fetch.
  destruct (transport rq (Api.net w)) as [o n]; reflexivity.
Qed.

Lemma bind_run {S A B} (m : Async S A) (k : A -> Async S B) (s : S) :
  bind m k s
  = match fst (m s) with
    | Fulfilled a => k a (snd (m s))
    | Rejected e => (Rejected e, snd (m s))
    end.
Proof. unfold bind. destruct (m s) as [[a | e] s']; reflexivity. Qed.

Lemma try_catch_run {S A} (m : Async S A) (h : Error -> Async S A) (s : S) :
  try_catch m h s
  = match fst (m s) with
    | Fulfilled a => (Fulfilled a, snd (m s))
    | Rejected e => h e (snd (m s))
    end.
Proof. unfold try_catch. destruct (m s) as [[a | e] s']; reflexivity. Qed.

(** [checkHealth], step by step. *)
Lemma checkHealth_run (w : Api.World T) :
  Api.checkHealth transport w
  = match fst (transport Api.health_request (Api.net w)) with
    | Fulfilled r =>
        (Fulfilled ((status r =? 200) || (status r =? 201)),
         after_fetch Api.health_request w)
    | Rejected e =>
        (Fulfilled false,
         logged "Health check failed:" e (after_fetch Api.health_request w))
    end.
Proof.
  unfold Api.checkHealth, Api.checkHealth_try.
  rewrite try_catch_run, bind_run, fetch_run. cbn [fst snd].
  destruct (fst (transport Api.health_request (Api.net w))); reflexivity.
Qed.

(** The [try] block of [identifyContact], step by step. *)
Lemma identifyContact_try_run (data : Value) (w : Api.World T) :
  Api.identifyContact_try transport data w
  = (match fst (transport (Api.identify_request data) (Api.net w)) with
     | Fulfilled r =>
         if ok r then json r
         else Rejected (new_Error ("HTTP error! status: "
                                     ++ Number_toString (status r)))
     | Rejected e => Rejected e
     end,
     after_fetch (Api.identify_request data) w).
Proof.
  unfold Api.identifyContact_try.
  rewrite bind_run, fetch_run. cbn [fst snd].
  destruct (fst (transport (Api.identify_request data) (Api.net w)))
    as [r | e]; [ | reflexivity ].
  rewrite bind_run.
  destruct (ok r); cbn; [ | reflexivity ].
  unfold bind, Api.Response_json, ret.
  destruct (json r); reflexivity.
Qed.

(** [identifyContact]: the outcome of the [try] block stands, and a
    failure is written to the console on its way out. *)
Lemma identifyContact_run (data : Value) (w : Api.World T) :
  Api.identifyContact transport data w
  = match fst (Api.identifyContact_try transport data w) with
    | Fulfilled v => (Fulfilled v, snd (Api.identifyContact_try transport data w))
    | Rejected e =>
        (Rejected e,
         logged "API call failed:" e (snd (Api.identifyContact_try transport data w)))
    end.
Proof.
  unfold Api.identifyContact. rewrite try_catch_run.
  destruct (fst (Api.identifyContact_try transport data w)); reflexivity.
Qed.

Lemma ok_range (r : Response) :
  ok r = negb ((status r <? 200) || (299 <? status r)).
Proof.
  unfold ok. rewrite negb_orb, <- Z.leb_antisym, <- Z.leb_antisym.
  reflexivity.
Qed.

Lemma identified_run (data : Value) (w : Api.World T) :
  fst (Api.identifyContact transport data w)
  = Spec.identified (fst (transport (Api.identify_request data) (Api.net w))).
Proof.
  rewrite identifyContact_run, identifyContact_try_run. cbn [fst snd].
  unfold Spec.identified.
  destruct (fst (transport (Api.identify_request data) (Api.net w)))
    as [r | e]; [ | reflexivity ].
  rewrite ok_range.
  destruct ((status r <? 200) || (299 <? status r)); cbn;
    [ reflexivity | destruct (json r); reflexivity ].
Qed.

Lemma healthy_status (r : Response) :
  Spec.healthy (Fulfilled r) = (status r =? 200) || (status r =? 201).
Proof.
  unfold Spec.healthy.
  destruct (Z.eq_dec (status r) 200) as [-> | N200]; [ reflexivity | ].
  destruct (Z.eq_dec (status r) 201) as [-> | N201]; [ reflexivity | ].
  apply Z.eqb_neq in N200, N201. now rewrite N200, N201.
Qed.

End ApiFacts.

(** ** services/api.ts: [checkHealth] *)

Section CheckHealth.

Context {T : Type}.
Variable transport : Request -> T -> Outcome Response * T.

(** The verdict is a function of the transport state alone, and so is the
    state the transport is left in: nothing else in the world is read. *)
Lemma checkHealth_reads_net_only (w1 w2 : Api.World T) :
  Api.net w1 = Api.net w2 ->
  fst (Api.checkHealth transport w1) = fst (Api.checkHealth transport w2)
  /\ Api.net (snd (Api.checkHealth transport w1))
     = Api.net (snd (Api.checkHealth transport w2)).
Proof.
  intros E. rewrite !checkHealth_run, E.
  destruct (fst (transport Api.health_request (Api.net w2))) eqn:O;
    cbn; rewrite E; auto.
Qed.

Lemma checkHealth_resolves (w : Api.World T) :
  exists b : bool, fst (Api.checkHealth transport w) = Fulfilled b.
Proof.
  rewrite checkHealth_run.
  destruct (fst (transport Api.health_request (Api.net w))); cbn [fst]; eauto.
Qed.

(** The code's verdict is the specification's. *)
Lemma checkHealth_is_healthy (w : Api.World T) :
  fst (Api.checkHealth transport w)
  = Fulfilled (Spec.healthy (fst (transport Api.health_request (Api.net w)))).
Proof.
  rewrite checkHealth_run.
  destruct (fst (transport Api.health_request (Api.net w))) as [r | e];
    cbn [fst]; [ now rewrite healthy_status | reflexivity ].
Qed.

(** C1: [checkHealth] issues GET <base>/health and resolves to [true]
    exactly when the answer is a response with status 200 or 201; being a
    boolean, it is [false] for every other status and for every failure of
    the transport. *)
Theorem checkHealth_true_iff_200_or_201 (w : Api.World T) :
  method Api.health_request = "GET"
  /\ url Api.health_request = Api.BASE_URL ++ "/health"
  /\ Api.sent (snd (Api.checkHealth transport w))
     = (Api.sent w ++ [Api.health_request])%list
  /\ exists b : bool,
       fst (Api.checkHealth transport w) = Fulfilled b
       /\ (b = true <->
           exists r,
             fst (transport Api.health_request (Api.net w)) = Fulfilled r
             /\ (status r = 200 \/ status r = 201)).
Proof.
  rewrite checkHealth_run.
  destruct (fst (transport Api.health_request (Api.net w))) as [r | e];
    cbn [fst snd]; repeat split; try reflexivity.
  - exists ((status r =? 200) || (status r =? 201)). split; [ reflexivity | ].
    rewrite orb_true_iff, !Z.eqb_eq. split.
    + intros H. exists r. auto.
    + intros [r' [E H]]. now inversion E; subst.
  - exists false. split; [ reflexivity | ].
    split; [ discriminate | intros [r [E _]]; discriminate ].
Qed.

(** C2: whatever the transport does, [checkHealth] resolves to a boolean
    and never rejects. *)
Theorem checkHealth_never_rejects (w : Api.World T) :
  (exists b : bool, fst (Api.checkHealth transport w) = Fulfilled b)
  /\ (forall e : Error, fst (Api.checkHealth transport w) <> Rejected e).
Proof.
  destruct (checkHealth_resolves w) as [b Hb].
  split; [ eauto | ]. rewrite Hb. discriminate.
Qed.

(** C8: when the first call leaves the transport in the state it found it
    in, a second call made right after resolves to the same boolean. *)
Theorem checkHealth_twice_same (w : Api.World T) :
  Api.net (snd (Api.checkHealth transport w)) = Api.net w ->
  exists b : bool,
    fst (Api.checkHealth transport w) = Fulfilled b
    /\ fst (Api.checkHealth transport (snd (Api.checkHealth transport w)))
       = Fulfilled b.
Proof.
  intros Same.
  destruct (checkHealth_reads_net_only _ _ Same) as [Again _].
  destruct (checkHealth_resolves w) as [b Hb].
  exists b. split; [ exact Hb | ]. now rewrite Again.
Qed.

End CheckHealth.

(** ** services/api.ts: [identifyContact] *)

Section IdentifyContact.

Context {T : Type}.
Variable transport : Request -> T -> Outcome Response * T.

Lemma strip_prefix_app (p s : string) :
  Spec.strip_prefix p (p ++ s) = Some s.
Proof.
  induction p as [ | a p IH]; cbn; [ reflexivity | ].
  now rewrite Ascii.eqb_refl.
Qed.

(** The status can be read back from the error made for it. *)
Lemma status_named_new_Error (n : Z) :
  Spec.status_named
    (new_Error ("HTTP error! status: " ++ Number_toString n)) = Some n.
Proof.
  unfold Spec.status_named, new_Error, Number_toString. cbn [message].
  rewrite strip_prefix_app, NilEmpty.isi. cbn. now rewrite DecimalZ.of_to.
Qed.

Lemma ok_iff (r : Response) : ok r = true <-> 200 <= status r <= 299.
Proof. unfold ok. rewrite andb_true_iff, !Z.leb_le. tauto. Qed.

Lemma not_ok_iff (r : Response) :
  ok r = false <-> status r < 200 \/ 299 < status r.
Proof.
  rewrite <- not_true_iff_false, ok_iff. lia.
Qed.

(** C3: [identifyContact] rejects with the transport's own error when
    [fetch] fails, with an error naming the status when the status is
    outside 200..299, and with the parser's error when the body of a
    2xx response does not parse; it resolves, to the parsed body, in the
    one remaining case, so it fails exactly when there is no success. *)
Theorem identifyContact_fails_iff_not_success
  (data : Value) (w : Api.World T) :
  let o := fst (transport (Api.identify_request data) (Api.net w)) in
  let result := fst (Api.identifyContact transport data w) in
  (forall cause, o = Rejected cause -> result = Rejected cause)
  /\ (forall r, o = Fulfilled r -> status r < 200 \/ 299 < status r ->
        exists e, result = Rejected e
                  /\ Spec.status_named e = Some (status r)
                  /\ e = new_Error ("HTTP error! status: "
                                      ++ Number_toString (status r)))
  /\ (forall r cause, o = Fulfilled r -> 200 <= status r <= 299 ->
        json r = Rejected cause -> result = Rejected cause)
  /\ (forall r v, o = Fulfilled r -> 200 <= status r <= 299 ->
        json r = Fulfilled v -> result = Fulfilled v)
  /\ ((exists e, result = Rejected e) <->
      ~ (exists r v, o = Fulfilled r /\ 200 <= status r <= 299
                     /\ json r = Fulfilled v)).
Proof.
  cbv zeta. rewrite identifyContact_run, identifyContact_try_run.
  cbn [fst snd].
  destruct (fst (transport (Api.identify_request data) (Api.net w)))
    as [r | cause].
  - destruct (ok r) eqn:Ok.
    + pose proof (proj1 (ok_iff r) Ok) as In.
      repeat split.
      * discriminate.
      * intros r' E Out. inversion E; subst. lia.
      * intros r' c E _ J. inversion E; subst. now rewrite J.
      * intros r' v E _ J. inversion E; subst. now rewrite J.
      * intros [e He] [r' [v [E [_ J]]]]. inversion E; subst.
        rewrite J in He. discriminate.
      * intros No. destruct (json r) as [v | e] eqn:J; cbn; [ | eauto ].
        exfalso. apply No. exists r, v. auto.
    + pose proof (proj1 (not_ok_iff r) Ok) as Out.
      repeat split.
      * discriminate.
      * intros r' E _. inversion E; subst. cbn.
        eexists. split; [ reflexivity | ].
        split; [ apply status_named_new_Error | reflexivity ].
      * intros r' c E In. inversion E; subst. lia.
      * intros r' v E In. inversion E; subst. lia.
      * intros _ [r' [v [E [In _]]]]. inversion E; subst. lia.
      * intros _. cbn. eauto.
  - repeat split; cbn; try discriminate.
    + intros c E. inversion E; subst. reflexivity.
    + intros _ [r [v [E _]]]. discriminate.
    + eauto.
Qed.

(** C4: for a response with a status in 200..299 whose body parses to
    [v], whatever value [v] is, [identifyContact] resolves to [v] itself
    and writes nothing to the console. *)
Theorem identifyContact_returns_parsed_body
  (data : Value) (w : Api.World T) (r : Response) (v : Value) :
  fst (transport (Api.identify_request data) (Api.net w)) = Fulfilled r ->
  200 <= status r <= 299 ->
  json r = Fulfilled v ->
  fst (Api.identifyContact transport data w) = Fulfilled v
  /\ Api.console (snd (Api.identifyContact transport data w))
     = Api.console w.
Proof.
  intros O In J. apply ok_iff in In.
  rewrite identifyContact_run, identifyContact_try_run. cbn [fst snd].
  rewrite O, In, J. cbn. auto.
Qed.

(** C7: for any payload at all, [identifyContact] hands exactly one
    request to [fetch], the POST whose body is [JSON.stringify] of the
    payload, and its outcome is read off the transport's answer to that
    request without looking at the payload: two payloads the transport
    answers alike end alike. *)
Theorem identifyContact_no_validation (data : Value) (w : Api.World T) :
  Api.sent (snd (Api.identifyContact transport data w))
  = (Api.sent w
       ++ [ {| url := Api.BASE_URL ++ "/identify";
               method := "POST";
               headers := [("Content-Type", "application/json")];
               body := JSON_stringify data |} ])%list
  /\ fst (Api.identifyContact transport data w)
     = Spec.identified
         (fst (transport (Api.identify_request data) (Api.net w)))
  /\ (forall data' : Value,
        fst (transport (Api.identify_request data') (Api.net w))
        = fst (transport (Api.identify_request data) (Api.net w)) ->
        fst (Api.identifyContact transport data' w)
        = fst (Api.identifyContact transport data w)).
Proof.
  split; [ | split ].
  - rewrite identifyContact_run, identifyContact_try_run. cbn [fst snd].
    match goal with |- context [match ?o with _ => _ end] => destruct o end;
      reflexivity.
  - apply identified_run.
  - intros data' Same. now rewrite !identified_run, Same.
Qed.

(** C9: an error that ends the [try] block of [identifyContact] is the
    error the caller gets, unchanged; the handler adds one console line
    with that same error. The error is the transport's, the one made for
    the status, or the parser's. *)
Theorem identifyContact_rethrows_same_error
  (data : Value) (w : Api.World T) (e : Error) :
  fst (Api.identifyContact_try transport data w) = Rejected e ->
  fst (Api.identifyContact transport data w) = Rejected e
  /\ Api.console (snd (Api.identifyContact transport data w))
     = (Api.console w ++ [("API call failed:", e)])%list
  /\ (fst (transport (Api.identify_request data) (Api.net w)) = Rejected e
      \/ exists r,
           fst (transport (Api.identify_request data) (Api.net w))
           = Fulfilled r
           /\ ((ok r = false
                /\ e = new_Error ("HTTP error! status: "
                                    ++ Number_toString (status r)))
               \/ (ok r = true /\ json r = Rejected e))).
Proof.
  intros Thrown. rewrite identifyContact_run, Thrown. cbn [fst snd].
  split; [ reflexivity | ].
  rewrite identifyContact_try_run in *. cbn [fst snd] in *.
  split; [ reflexivity | ].
  destruct (fst (transport (Api.identify_request data) (Api.net w)))
    as [r | cause];
    [ right; exists r; split; [ reflexivity | ]
    | left; now inversion Thrown ].
  destruct (ok r); [ right | left ]; split; try reflexivity.
  - exact Thrown.
  - now inversion Thrown.
Qed.

End IdentifyContact.

(** ** JSON.stringify on request payloads *)

Section Stringify.

Lemma append_assoc (a b c : string) : ((a ++ b) ++ c = a ++ (b ++ c))%string.
Proof. induction a as [ | x a IH]; cbn; [ reflexivity | now rewrite IH ]. Qed.

(** Reading a quoted character gives the character back. *)
Lemma read_quote_char (c : ascii) (tail : string) :
  Spec.read_chars (quote_char c ++ tail)
  = Spec.push (Some c) (Spec.read_chars tail).
Proof.
  destruct c as [[|] [|] [|] [|] [|] [|] [|] [|]]; reflexivity.
Qed.

Lemma read_quote_chars (s rest : string) :
  Spec.read_chars (quote_chars s ++ String dquote rest) = Some (s, rest).
Proof.
  induction s as [ | c s IH].
  - reflexivity.
  - cbn [quote_chars]. rewrite append_assoc, read_quote_char, IH.
    reflexivity.
Qed.

(** A quoted string reads back as the string, whatever follows it: no
    character of the string ends the literal early or is altered. *)
Lemma read_QuoteJSONString (s rest : string) :
  Spec.read_string (QuoteJSONString s ++ rest) = Some (s, rest).
Proof.
  unfold QuoteJSONString. cbn [append Spec.read_string].
  change (Ascii.eqb dquote dquote) with true. cbn iota.
  rewrite append_assoc. apply read_quote_chars.
Qed.

(** On properties that are strings or [undefined], [JSON.stringify]
    writes the strings and leaves the rest out. *)
Lemma members_of_optional_strings (props : list (string * Value)) :
  forallb (fun kv => Api.optional_string (snd kv)) props = true ->
  flat_map
    (fun kv => match SerializeJSONProperty (snd kv) with
               | Some s => [QuoteJSONString (fst kv) ++ ":" ++ s]
               | None => []
               end) props
  = flat_map Spec.member props.
Proof.
  induction props as [ | [k v] props IH]; cbn [forallb flat_map];
    [ reflexivity | ].
  rewrite andb_true_iff. intros [Hv Hrest]. rewrite (IH Hrest).
  destruct v; try discriminate; reflexivity.
Qed.

Lemma IdentifyRequest_fields (props : list (string * Value)) :
  Api.IdentifyRequest (VObject props) = true ->
  forallb (fun kv => Api.optional_string (snd kv)) props = true.
Proof.
  unfold Api.IdentifyRequest. rewrite andb_true_iff. intros [All _].
  rewrite forallb_forall in *. intros kv In. specialize (All kv In).
  now apply andb_true_iff in All.
Qed.

Lemma stringify_IdentifyRequest (data : Value) :
  Api.IdentifyRequest data = true ->
  JSON_stringify data = Some (Spec.request_json data).
Proof.
  destruct data; try discriminate. intros Typed.
  unfold JSON_stringify, Spec.request_json. cbn [SerializeJSONProperty].
  now rewrite (members_of_optional_strings _ (IdentifyRequest_fields _ Typed)).
Qed.

(** A property that is [undefined] is written exactly as if it were not
    there, wherever it stands among the others. *)
Lemma stringify_undefined_as_absent
  (k : string) (before after : list (string * Value)) :
  JSON_stringify (VObject (before ++ (k, VUndefined) :: after))
  = JSON_stringify (VObject (before ++ after)).
Proof.
  unfold JSON_stringify. cbn [SerializeJSONProperty].
  now rewrite !flat_map_app.
Qed.

(** A single present field, alone or next to an [undefined] one. *)
Lemma stringify_single_field (k other s : string) :
  let text :=
    Some ("{" ++ (QuoteJSONString k ++ ":" ++ QuoteJSONString s) ++ "}") in
  JSON_stringify (VObject [(k, VString s)]) = text
  /\ JSON_stringify (VObject [(k, VString s); (other, VUndefined)]) = text
  /\ JSON_stringify (VObject [(other, VUndefined); (k, VString s)]) = text.
Proof.
  cbv zeta. unfold JSON_stringify.
  cbn [SerializeJSONProperty flat_map app join fst snd].
  repeat split.
Qed.

(** *** Reading the body back *)

Lemma members_are_present_fields (props : list (string * Value)) :
  flat_map Spec.member props
  = map Spec.member_text (Spec.present_fields (VObject props)).
Proof.
  cbn [Spec.present_fields].
  induction props as [ | [k v] props IH]; cbn [flat_map]; [ reflexivity | ].
  rewrite map_app, <- IH. unfold Spec.member at 1. cbn [fst snd].
  destruct v; reflexivity.
Qed.

Lemma read_member_text (m : string * string) (rest : string) :
  Spec.read_member (Spec.member_text m ++ rest) = Some (m, rest).
Proof.
  destruct m as [k v]. unfold Spec.member_text, Spec.read_member.
  cbn [fst snd]. rewrite !append_assoc, read_QuoteJSONString.
  cbn [append Spec.expect]. change (Ascii.eqb ":" ":") with true. cbn iota.
  now rewrite read_QuoteJSONString.
Qed.

Lemma length_append (a b : string) :
  String.length (a ++ b) = (String.length a + String.length b)%nat.
Proof. induction a as [ | x a IH]; cbn; [ reflexivity | now rewrite IH ]. Qed.

Lemma member_text_length (m : string * string) :
  (1 <= String.length (Spec.member_text m))%nat.
Proof. unfold Spec.member_text, QuoteJSONString. cbn. lia. Qed.

Lemma join_length (ms : list (string * string)) :
  (List.length ms
   <= String.length (join "," (map Spec.member_text ms)))%nat.
Proof.
  induction ms as [ | m ms IH]; [ cbn; lia | ].
  pose proof (member_text_length m) as One.
  destruct ms as [ | m' ms]; [ cbn [join map List.length]; lia | ].
  change (join "," (map Spec.member_text (m :: m' :: ms)))
    with (Spec.member_text m ++ ","
            ++ join "," (map Spec.member_text (m' :: ms))).
  rewrite !length_append. cbn [List.length String.length] in *. lia.
Qed.

(** With fuel for every member, the members written are the members
    read. *)
Lemma read_members_join (ms : list (string * string)) :
  forall (m : string * string) (fuel : nat),
    (List.length ms < fuel)%nat ->
    Spec.read_members fuel
      (join "," (map Spec.member_text (m :: ms)) ++ "}")
    = Some (m :: ms).
Proof.
  induction ms as [ | m' ms IH]; intros m [ | fuel] Enough;
    try (cbn in Enough; lia).
  - cbn [map join Spec.read_members]. rewrite read_member_text.
    reflexivity.
  - change (join "," (map Spec.member_text (m :: m' :: ms)))
      with (Spec.member_text m ++ ","
              ++ join "," (map Spec.member_text (m' :: ms))).
    cbn [Spec.read_members]. rewrite !append_assoc, read_member_text.
    cbn [append]. change (Ascii.eqb "," ",") with true. cbn iota.
    rewrite IH by (cbn [List.length] in Enough; lia). reflexivity.
Qed.

(** The JSON text of a payload reads back as exactly its present fields,
    names and values intact, in order. *)
Lemma read_request_json (props : list (string * Value)) :
  Spec.read_request (Spec.request_json (VObject props))
  = Some (Spec.present_fields (VObject props)).
Proof.
  unfold Spec.request_json. rewrite members_are_present_fields.
  destruct (Spec.present_fields (VObject props)) as [ | m ms]; [ reflexivity | ].
  cbn [append Spec.read_request]. change (Ascii.eqb "{" "{") with true.
  cbn iota.
  assert (Quoted : exists tail,
             join "," (map Spec.member_text (m :: ms)) ++ "}"
             = String dquote tail).
  { destruct ms; cbn [map join]; unfold Spec.member_text, QuoteJSONString;
      cbn [append]; eauto. }
  destruct Quoted as [tail Quoted].
  replace (String.eqb (join "," (map Spec.member_text (m :: ms)) ++ "}") "}")
    with false by (rewrite Quoted; reflexivity).
  apply read_members_join.
  rewrite length_append. pose proof (join_length (m :: ms)) as L.
  cbn [List.length String.length] in *. lia.
Qed.

End Stringify.

Section IdentifyRequestBody.

Context {T : Type}.
Variable transport : Request -> T -> Outcome Response * T.

(** C6: for an [IdentifyRequest], [identifyContact] hands [fetch] one
    request: a POST to <base>/identify with the header
    [Content-Type: application/json] whose body is the JSON text of the
    payload, an object holding the fields that are strings (each name and
    value quoted) and no trace of those that are missing or
    [undefined]; read back, that text gives exactly the present fields
    with their values. *)
Theorem identifyContact_posts_json_body (data : Value) (w : Api.World T) :
  Api.IdentifyRequest data = true ->
  exists rq : Request,
    Api.sent (snd (Api.identifyContact transport data w))
    = (Api.sent w ++ [rq])%list
    /\ method rq = "POST"
    /\ url rq = Api.BASE_URL ++ "/identify"
    /\ In ("Content-Type", "application/json") (headers rq)
    /\ body rq = JSON_stringify data
    /\ body rq = Some (Spec.request_json data)
    /\ Spec.read_request (Spec.request_json data)
       = Some (Spec.present_fields data).
Proof.
  intros Typed. exists (Api.identify_request data).
  rewrite identifyContact_run, identifyContact_try_run. cbn [fst snd].
  split.
  - match goal with |- context [match ?o with _ => _ end] => destruct o end;
      reflexivity.
  - cbn [Api.identify_request method url headers body].
    repeat split; try reflexivity; [ now left | | ].
    + now apply stringify_IdentifyRequest.
    + destruct data; try discriminate. apply read_request_json.
Qed.

End IdentifyRequestBody.

(** ** The two success checks side by side *)

Section Asymmetry.

Context {T : Type}.
Variable transport : Request -> T -> Outcome Response * T.

(** C5: when the health request and the identify request are both
    answered with one and the same status between 202 and 299,
    [checkHealth] resolves to [false] while [identifyContact] takes the
    response as a success and resolves to its parsed body. *)
Theorem success_ranges_differ
  (data : Value) (w w' : Api.World T) (rh ri : Response) (v : Value) :
  fst (transport Api.health_request (Api.net w)) = Fulfilled rh ->
  fst (transport (Api.identify_request data) (Api.net w')) = Fulfilled ri ->
  status rh = status ri ->
  202 <= status ri <= 299 ->
  json ri = Fulfilled v ->
  fst (Api.checkHealth transport w) = Fulfilled false
  /\ fst (Api.identifyContact transport data w') = Fulfilled v.
Proof.
  intros Oh Oi Same In J. split.
  - rewrite checkHealth_run, Oh. cbn [fst]. rewrite Same.
    replace (status ri =? 200) with false by (symmetry; apply Z.eqb_neq; lia).
    replace (status ri =? 201) with false by (symmetry; apply Z.eqb_neq; lia).
    reflexivity.
  - rewrite identified_run, Oi. unfold Spec.identified.
    replace (status ri <? 200) with false by (symmetry; apply Z.ltb_ge; lia).
    replace (299 <? status ri) with false by (symmetry; apply Z.ltb_ge; lia).
    exact J.
Qed.

End Asymmetry.

(** ** pages/IdentifyPage.tsx: the caller's side of the contract *)

Section Page.

Context {T : Type}.
Variable transport : Request -> T -> Outcome Response * T.

(** For a string or [undefined], truthy means a non-empty string. *)
Lemma truthy_optional_string (v : Value) :
  Api.optional_string v = true -> ToBoolean v = Spec.nonempty_string v.
Proof.
  destruct v as [ | | b | n | s | items | props]; try discriminate;
    [ reflexivity | destruct s; reflexivity ].
Qed.

Lemma FormData_fields (data : Value) :
  IdentifyPage.FormData data = true ->
  Api.optional_string (Get data "email") = true
  /\ Api.optional_string (Get data "phoneNumber") = true.
Proof.
  destruct data; try discriminate. unfold IdentifyPage.FormData.
  now rewrite andb_true_iff.
Qed.

(** The guard at the top of [onSubmit] is the negation of "has a field". *)
Lemma guard_is_no_field (data : Value) :
  IdentifyPage.FormData data = true ->
  negb (ToBoolean (Get data "email"))
  && negb (ToBoolean (Get data "phoneNumber"))
  = negb (Spec.has_field data).
Proof.
  intros Typed. destruct (FormData_fields _ Typed) as [He Hp].
  unfold Spec.has_field.
  rewrite (truthy_optional_string _ He), (truthy_optional_string _ Hp).
  now rewrite negb_orb.
Qed.

Lemma refine_is_has_field (data : Value) :
  IdentifyPage.FormData data = true ->
  ToBoolean (IdentifyPage.formSchema_refine data) = Spec.has_field data.
Proof.
  intros Typed. destruct (FormData_fields _ Typed) as [He Hp].
  unfold IdentifyPage.formSchema_refine, Js.or, Spec.has_field.
  rewrite <- (truthy_optional_string _ He), <- (truthy_optional_string _ Hp).
  destruct (ToBoolean (Get data "email")) eqn:E; [ exact E | reflexivity ].
Qed.

(** Past the guard, [onSubmit] makes the one call and settles the page
    either way; it never rejects. *)
Lemma onSubmit_past_guard (data : Value) (p : IdentifyPage.Page T) :
  negb (ToBoolean (Get data "email"))
  && negb (ToBoolean (Get data "phoneNumber")) = false ->
  IdentifyPage.onSubmit transport data p
  = (Fulfilled tt,
     let done := Api.identifyContact transport data (IdentifyPage.env p) in
     match fst done with
     | Fulfilled v =>
         {| IdentifyPage.env := snd done;
            IdentifyPage.response := Some v;
            IdentifyPage.isLoading := false;
            IdentifyPage.toasts :=
              (IdentifyPage.toasts p
                 ++ [(IdentifyPage.success, "Contact identified")])%list |}
     | Rejected _ =>
         {| IdentifyPage.env := snd done;
            IdentifyPage.response := None;
            IdentifyPage.isLoading := false;
            IdentifyPage.toasts :=
              (IdentifyPage.toasts p
                 ++ [(IdentifyPage.error, "Failed to identify contact")])%list |}
     end).
Proof.
  intros Guard. unfold IdentifyPage.onSubmit. rewrite Guard.
  unfold bind, try_finally, try_catch, IdentifyPage.call,
    IdentifyPage.setIsLoading, IdentifyPage.setResponse, IdentifyPage.toast.
  cbn [IdentifyPage.env IdentifyPage.response IdentifyPage.isLoading
       IdentifyPage.toasts].
  destruct (Api.identifyContact transport data (IdentifyPage.env p))
    as [[v | e] w']; reflexivity.
Qed.

(** C10: on form data, the schema's refinement and the guard of
    [onSubmit] both come to "email or phoneNumber is a non-empty string";
    [onSubmit] hands [identifyContact] its one request when that holds
    and none when it does not, in which case it only shows the toast
    asking for a field. *)
Theorem onSubmit_calls_only_with_a_field
  (data : Value) (p : IdentifyPage.Page T) :
  IdentifyPage.FormData data = true ->
  IdentifyPage.formSchema_accepts data = Spec.has_field data
  /\ Api.sent (IdentifyPage.env (snd (IdentifyPage.onSubmit transport data p)))
     = (Api.sent (IdentifyPage.env p)
          ++ (if Spec.has_field data
              then [Api.identify_request data]
              else []))%list
  /\ (Spec.has_field data = false ->
      IdentifyPage.onSubmit transport data p
      = (Fulfilled tt,
         {| IdentifyPage.env := IdentifyPage.env p;
            IdentifyPage.response := IdentifyPage.response p;
            IdentifyPage.isLoading := IdentifyPage.isLoading p;
            IdentifyPage.toasts :=
              (IdentifyPage.toasts p
                 ++ [(IdentifyPage.error,
                      "Please provide at least one field")])%list |})).
Proof.
  intros Typed. pose proof (guard_is_no_field _ Typed) as Guard.
  split; [ | split ].
  - unfold IdentifyPage.formSchema_accepts.
    now rewrite Typed, refine_is_has_field.
  - destruct (Spec.has_field data); cbn [negb] in Guard.
    + rewrite (onSubmit_past_guard _ _ Guard). cbn [snd].
      rewrite identifyContact_run, identifyContact_try_run. cbn [fst snd].
      repeat match goal with
             | |- context [match ?o with _ => _ end] => destruct o
             end; reflexivity.
    + unfold IdentifyPage.onSubmit. rewrite Guard. cbn.
      now rewrite app_nil_r.
  - intros No. rewrite No in Guard. cbn [negb] in Guard.
    unfold IdentifyPage.onSubmit. rewrite Guard. reflexivity.
Qed.

End Page.

(** ** The specification's test cases, run on mocked transports *)

Section Cases.

Example checkHealth_200 :
  fst (Api.checkHealth (Mock.answer 200) (Mock.fresh tt)) = Fulfilled true.
Proof. reflexivity. Qed.

Example checkHealth_201 :
  fst (Api.checkHealth (Mock.answer 201) (Mock.fresh tt)) = Fulfilled true.
Proof. reflexivity. Qed.

Example checkHealth_404_500 :
  fst (Api.checkHealth (Mock.answer 404) (Mock.fresh tt)) = Fulfilled false
  /\ fst (Api.checkHealth (Mock.answer 500) (Mock.fresh tt)) = Fulfilled false.
Proof. split; reflexivity. Qed.

Example checkHealth_network_error :
  Api.checkHealth (Mock.always (Rejected Mock.network_error)) (Mock.fresh tt)
  = (Fulfilled false,
     {| Api.net := tt;
        Api.sent := [Api.health_request];
        Api.console := [("Health check failed:", Mock.network_error)] |}).
Proof. reflexivity. Qed.

Example identifyContact_200 :
  fst (Api.identifyContact (Mock.answer 200)
         (VObject [("email", VString "a@x.com")]) (Mock.fresh tt))
  = Fulfilled Mock.contact_body.
Proof. reflexivity. Qed.

Example identifyContact_400 :
  fst (Api.identifyContact (Mock.answer 400)
         (VObject [("email", VString "a@x.com")]) (Mock.fresh tt))
  = Rejected (new_Error "HTTP error! status: 400").
Proof. reflexivity. Qed.

Example identifyContact_network_error :
  fst (Api.identifyContact (Mock.always (Rejected Mock.network_error))
         (VObject [("email", VString "a@x.com")]) (Mock.fresh tt))
  = Rejected Mock.network_error.
Proof. reflexivity. Qed.

(** A 2xx response whose body does not parse: the parser's error comes
    out, not a status error. *)
Example identifyContact_malformed_body :
  fst (Api.identifyContact
         (Mock.always
            (Fulfilled {| status := 204; json := Rejected Mock.syntax_error |}))
         (VObject [("email", VString "a@x.com")]) (Mock.fresh tt))
  = Rejected Mock.syntax_error.
Proof. reflexivity. Qed.

(** A body that is no [ContactResponse] is returned all the same. *)
Example identifyContact_unvalidated_shape :
  Spec.ContactResponse (VString "nope") = false
  /\ Spec.ContactResponse Mock.contact_body = true
  /\ fst (Api.identifyContact
            (Mock.always
               (Fulfilled {| status := 200;
                             json := Fulfilled (VString "nope") |}))
            (VObject [("email", VString "a@x.com")]) (Mock.fresh tt))
     = Fulfilled (VString "nope").
Proof. repeat split. Qed.

(** An empty payload is sent like any other. *)
Example identifyContact_empty_payload :
  Spec.has_field (VObject []) = false
  /\ Api.sent (snd (Api.identifyContact (Mock.answer 200) (VObject [])
                      (Mock.fresh tt)))
     = [ {| url := "https://aryan-bitespeed.onrender.com/api/identify";
            method := "POST";
            headers := [("Content-Type", "application/json")];
            body := Some "{}" |} ].
Proof. split; reflexivity. Qed.

(** With a transport whose state does move between calls, two calls in a
    row may differ: the condition of C8 is needed. *)
Example checkHealth_scripted_differs :
  let script :=
    [Fulfilled {| status := 200; json := Fulfilled VNull |};
     Fulfilled {| status := 503; json := Fulfilled VNull |}] in
  let first := Api.checkHealth Mock.scripted (Mock.fresh script) in
  fst first = Fulfilled true
  /\ fst (Api.checkHealth Mock.scripted (snd first)) = Fulfilled false.
Proof. split; reflexivity. Qed.

(** The page: empty inputs make no call, a filled one makes one. *)
Example onSubmit_empty_inputs :
  let data := VObject [("email", VString ""); ("phoneNumber", VString "")] in
  let after := snd (IdentifyPage.onSubmit (Mock.answer 200) data (Mock.fresh_page tt)) in
  IdentifyPage.formSchema_accepts data = false
  /\ Api.sent (IdentifyPage.env after) = []
  /\ IdentifyPage.toasts after
     = [(IdentifyPage.error, "Please provide at least one field")].
Proof. repeat split. Qed.

Example onSubmit_phone_only :
  let data := VObject [("email", VString ""); ("phoneNumber", VString "123")] in
  let after := snd (IdentifyPage.onSubmit (Mock.answer 200) data (Mock.fresh_page tt)) in
  IdentifyPage.formSchema_accepts data = true
  /\ Api.sent (IdentifyPage.env after) = [Api.identify_request data]
  /\ IdentifyPage.response after = Some Mock.contact_body
  /\ IdentifyPage.isLoading after = false.
Proof. repeat split. Qed.

End Cases.

(** ** The theorems at concrete inputs *)

Lemma identifyContact_returns_parsed_body_witness :
  fst (Api.identifyContact
         (Mock.by_status (Fulfilled Mock.contact_body))
         (VObject [("email", VString "a@x.com")]) (Mock.fresh 200))
  = Fulfilled Mock.contact_body
  /\ Api.console
       (snd (Api.identifyContact
               (Mock.by_status (Fulfilled Mock.contact_body))
               (VObject [("email", VString "a@x.com")]) (Mock.fresh 200)))
     = [].
Proof.
  apply (identifyContact_returns_parsed_body
           (Mock.by_status (Fulfilled Mock.contact_body))
           (VObject [("email", VString "a@x.com")]) (Mock.fresh 200)
           {| status := 200; json := Fulfilled Mock.contact_body |}
           Mock.contact_body);
    [ reflexivity | cbn; lia | reflexivity ].
Defined.

Lemma success_ranges_differ_witness :
  fst (Api.checkHealth (Mock.by_status (Fulfilled Mock.contact_body))
         (Mock.fresh 204))
  = Fulfilled false
  /\ fst (Api.identifyContact (Mock.by_status (Fulfilled Mock.contact_body))
            (VObject [("phoneNumber", VString "123")]) (Mock.fresh 204))
     = Fulfilled Mock.contact_body.
Proof.
  apply (success_ranges_differ
           (Mock.by_status (Fulfilled Mock.contact_body))
           (VObject [("phoneNumber", VString "123")])
           (Mock.fresh 204) (Mock.fresh 204)
           {| status := 204; json := Fulfilled Mock.contact_body |}
           {| status := 204; json := Fulfilled Mock.contact_body |}
           Mock.contact_body);
    [ reflexivity | reflexivity | reflexivity | cbn; lia | reflexivity ].
Defined.

Lemma identifyContact_posts_json_body_witness :
  let data := VObject [("email", VString "a@x.com");
                       ("phoneNumber", VUndefined)] in
  exists rq : Request,
    Api.sent (snd (Api.identifyContact
                     (Mock.by_status (Fulfilled Mock.contact_body))
                     data (Mock.fresh 200)))
    = [rq]
    /\ method rq = "POST"
    /\ url rq = "https://aryan-bitespeed.onrender.com/api/identify"
    /\ In ("Content-Type", "application/json") (headers rq)
    /\ body rq = JSON_stringify data
    /\ body rq
       = Some ("{" ++ (QuoteJSONString "email" ++ ":"
                         ++ QuoteJSONString "a@x.com") ++ "}")
    /\ Spec.read_request
         ("{" ++ (QuoteJSONString "email" ++ ":"
                    ++ QuoteJSONString "a@x.com") ++ "}")
       = Some [("email", "a@x.com")].
Proof.
  cbv zeta.
  apply (identifyContact_posts_json_body
           (Mock.by_status (Fulfilled Mock.contact_body))
           (VObject [("email", VString "a@x.com");
                     ("phoneNumber", VUndefined)])
           (Mock.fresh 200)).
  reflexivity.
Defined.

Lemma checkHealth_twice_same_witness :
  exists b : bool,
    fst (Api.checkHealth (Mock.by_status (Fulfilled VNull)) (Mock.fresh 201))
    = Fulfilled b
    /\ fst (Api.checkHealth (Mock.by_status (Fulfilled VNull))
              (snd (Api.checkHealth (Mock.by_status (Fulfilled VNull))
                      (Mock.fresh 201))))
       = Fulfilled b.
Proof.
  apply (checkHealth_twice_same
           (Mock.by_status (Fulfilled VNull)) (Mock.fresh 201)).
  reflexivity.
Defined.

Lemma identifyContact_rethrows_same_error_witness :
  let transport := Mock.by_status (Fulfilled Mock.contact_body) in
  let data := VObject [("email", VString "a@x.com")] in
  let e := new_Error "HTTP error! status: 400" in
  fst (Api.identifyContact transport data (Mock.fresh 400)) = Rejected e
  /\ Api.console (snd (Api.identifyContact transport data (Mock.fresh 400)))
     = [("API call failed:", e)].
Proof.
  cbv zeta.
  destruct (identifyContact_rethrows_same_error
              (Mock.by_status (Fulfilled Mock.contact_body))
              (VObject [("email", VString "a@x.com")]) (Mock.fresh 400)
              (new_Error "HTTP error! status: 400") eq_refl)
    as [Same [Logged _]].
  split; [ exact Same | exact Logged ].
Defined.

Lemma onSubmit_calls_only_with_a_field_witness :
  let data := VObject [("email", VString ""); ("phoneNumber", VString "")] in
  let transport := Mock.by_status (Fulfilled Mock.contact_body) in
  IdentifyPage.formSchema_accepts data = false
  /\ Api.sent (IdentifyPage.env
                 (snd (IdentifyPage.onSubmit transport data
                         (Mock.fresh_page 200))))
     = [].
Proof.
  cbv zeta.
  destruct (onSubmit_calls_only_with_a_field
              (Mock.by_status (Fulfilled Mock.contact_body))
              (VObject [("email", VString ""); ("phoneNumber", VString "")])
              (Mock.fresh_page 200) eq_refl)
    as [Schema [Sent _]].
  split; [ exact Schema | exact Sent ].
Defined.

(** * The rest of the code *)

(** ** services/api.ts: what the two operations log and read *)

Section ApiMore.

Context {T : Type}.
Variable transport : Request -> T -> Outcome Response * T.

(** X1: [checkHealth] writes to the console exactly when [fetch] itself
    fails, one line with that error; a response, whatever its status,
    leaves the console as it was. *)
Theorem checkHealth_logs_only_transport_failures (w : Api.World T) :
  Api.console (snd (Api.checkHealth transport w))
  = (Api.console w
       ++ match fst (transport Api.health_request (Api.net w)) with
          | Rejected e => [("Health check failed:", e)]
          | Fulfilled _ => []
          end)%list.
Proof.
  rewrite checkHealth_run.
  destruct (fst (transport Api.health_request (Api.net w))); cbn;
    [ now rewrite app_nil_r | reflexivity ].
Qed.

(** X3: a payload with a field set to [undefined] and the payload
    without that field give the very same request. *)
Theorem identify_request_undefined_as_absent
  (k : string) (before after : list (string * Value)) :
  Api.identify_request (VObject (before ++ (k, VUndefined) :: after))
  = Api.identify_request (VObject (before ++ after)).
Proof.
  unfold Api.identify_request. now rewrite stringify_undefined_as_absent.
Qed.

End ApiMore.

(** X2: when the status is outside 200..299 the body of the response is
    never looked at: two responses with the same such status, whatever
    their bodies and whatever the transports and payloads they came
    from, make [identifyContact] fail with the same error. *)
Theorem identifyContact_ignores_body_of_failure
  {T1 T2 : Type}
  (transport1 : Request -> T1 -> Outcome Response * T1)
  (transport2 : Request -> T2 -> Outcome Response * T2)
  (data1 data2 : Value) (w1 : Api.World T1) (w2 : Api.World T2)
  (r1 r2 : Response) :
  fst (transport1 (Api.identify_request data1) (Api.net w1)) = Fulfilled r1 ->
  fst (transport2 (Api.identify_request data2) (Api.net w2)) = Fulfilled r2 ->
  status r1 = status r2 ->
  status r1 < 200 \/ 299 < status r1 ->
  fst (Api.identifyContact transport1 data1 w1)
  = fst (Api.identifyContact transport2 data2 w2)
  /\ exists e, fst (Api.identifyContact transport1 data1 w1) = Rejected e
               /\ Spec.status_named e = Some (status r1).
Proof.
  intros O1 O2 Same Out.
  rewrite !identifyContact_run, !identifyContact_try_run. cbn [fst snd].
  rewrite O1, O2.
  assert (Ok1 : ok r1 = false) by now apply not_ok_iff.
  assert (Ok2 : ok r2 = false) by (apply not_ok_iff; now rewrite <- Same).
  rewrite Ok1, Ok2, Same. cbn [fst]. split; [ reflexivity | ].
  eexists. split; [ reflexivity | ]. rewrite <- Same.
  apply status_named_new_Error.
Qed.

Lemma identifyContact_ignores_body_of_failure_witness :
  fst (Api.identifyContact (Mock.answer 404)
         (VObject [("email", VString "a@x.com")]) (Mock.fresh tt))
  = fst (Api.identifyContact
           (Mock.always
              (Fulfilled {| status := 404;
                            json := Rejected Mock.syntax_error |}))
           (VObject []) (Mock.fresh tt))
  /\ exists e,
       fst (Api.identifyContact (Mock.answer 404)
              (VObject [("email", VString "a@x.com")]) (Mock.fresh tt))
       = Rejected e
       /\ Spec.status_named e = Some 404.
Proof.
  apply (identifyContact_ignores_body_of_failure
           (Mock.answer 404)
           (Mock.always
              (Fulfilled {| status := 404;
                            json := Rejected Mock.syntax_error |}))
           (VObject [("email", VString "a@x.com")]) (VObject [])
           (Mock.fresh tt) (Mock.fresh tt)
           {| status := 404; json := Fulfilled Mock.contact_body |}
           {| status := 404; json := Rejected Mock.syntax_error |});
    [ reflexivity | reflexivity | reflexivity | cbn; lia ].
Defined.

(** ** pages/IdentifyPage.tsx: the health check on mount *)

Section UiFacts.

Context {T C F : Type}.
Variable transport : Request -> T -> Outcome Response * T.
Variable writeText : string -> C -> Outcome unit * C.
Variable reset : F -> F.

Lemma on_page_run {A} (m : Async (IdentifyPage.Page T) A)
  (s : Ui.Component T C F) :
  Ui.on_page m s
  = (fst (m (Ui.page s)),
     {| Ui.page := snd (m (Ui.page s));
        Ui.isHealthy := Ui.isHealthy s;
        Ui.isExpanded := Ui.isExpanded s;
        Ui.form := Ui.form s;
        Ui.clipboard := Ui.clipboard s |}).
Proof. unfold Ui.on_page. destruct (m (Ui.page s)); reflexivity. Qed.

Lemma call_run {A} (m : Async (Api.World T) A) (p : IdentifyPage.Page T) :
  IdentifyPage.call m p
  = (fst (m (IdentifyPage.env p)),
     {| IdentifyPage.env := snd (m (IdentifyPage.env p));
        IdentifyPage.response := IdentifyPage.response p;
        IdentifyPage.isLoading := IdentifyPage.isLoading p;
        IdentifyPage.toasts := IdentifyPage.toasts p |}).
Proof.
  unfold IdentifyPage.call. destruct (m (IdentifyPage.env p)); reflexivity.
Qed.

(** The state the health check ends in when [checkHealth] gave [b]. *)
Lemma performHealthCheck_try_run (s : Ui.Component T C F) (b : bool) :
  fst (Api.checkHealth transport (IdentifyPage.env (Ui.page s)))
  = Fulfilled b ->
  Ui.performHealthCheck_try (C := C) (F := F) transport s
  = (Fulfilled tt,
     {| Ui.page :=
          {| IdentifyPage.env :=
               snd (Api.checkHealth transport (IdentifyPage.env (Ui.page s)));
             IdentifyPage.response := IdentifyPage.response (Ui.page s);
             IdentifyPage.isLoading := IdentifyPage.isLoading (Ui.page s);
             IdentifyPage.toasts :=
               (IdentifyPage.toasts (Ui.page s)
                  ++ [if b
                      then (IdentifyPage.success, "Backend connected")
                      else (IdentifyPage.error, "Backend disconnected")])%list |};
        Ui.isHealthy := Some b;
        Ui.isExpanded := Ui.isExpanded s;
        Ui.form := Ui.form s;
        Ui.clipboard := Ui.clipboard s |}).
Proof.
  intros Hb. unfold Ui.performHealthCheck_try.
  rewrite bind_run, on_page_run, call_run. cbn [fst snd]. rewrite Hb.
  destruct b; reflexivity.
Qed.

(** X4: the handler around the health check never runs: the [try] block
    always completes, so [performHealthCheck] is its [try] block. *)
Theorem performHealthCheck_catch_unreachable (s : Ui.Component T C F) :
  fst (Ui.performHealthCheck_try (C := C) (F := F) transport s) = Fulfilled tt
  /\ Ui.performHealthCheck transport s
     = Ui.performHealthCheck_try transport s.
Proof.
  destruct (checkHealth_resolves transport (IdentifyPage.env (Ui.page s)))
    as [b Hb].
  unfold Ui.performHealthCheck. rewrite try_catch_run.
  rewrite (performHealthCheck_try_run s b Hb). cbn [fst snd]. auto.
Qed.

(** X5: after the health check the badge is never hidden: it reads
    [Connected] exactly when GET <base>/health was answered with status
    200 or 201 and [Disconnected] otherwise, one toast saying the same is
    added, one request has gone out, and the response shown, the loading
    flag, the layout, the form and the clipboard are untouched. *)
Theorem performHealthCheck_sets_badge (s : Ui.Component T C F) :
  let after := snd (Ui.performHealthCheck transport s) in
  exists b : bool,
    (b = true <->
     exists r,
       fst (transport Api.health_request
              (Api.net (IdentifyPage.env (Ui.page s)))) = Fulfilled r
       /\ (status r = 200 \/ status r = 201))
    /\ fst (Ui.performHealthCheck transport s) = Fulfilled tt
    /\ Ui.isHealthy after = Some b
    /\ Ui.health_badge after
       = Some (if b then Ui.Connected else Ui.Disconnected)
    /\ IdentifyPage.toasts (Ui.page after)
       = (IdentifyPage.toasts (Ui.page s)
            ++ [if b
                then (IdentifyPage.success, "Backend connected")
                else (IdentifyPage.error, "Backend disconnected")])%list
    /\ Api.sent (IdentifyPage.env (Ui.page after))
       = (Api.sent (IdentifyPage.env (Ui.page s)) ++ [Api.health_request])%list
    /\ IdentifyPage.response (Ui.page after) = IdentifyPage.response (Ui.page s)
    /\ IdentifyPage.isLoading (Ui.page after)
       = IdentifyPage.isLoading (Ui.page s)
    /\ Ui.isExpanded after = Ui.isExpanded s
    /\ Ui.form after = Ui.form s
    /\ Ui.clipboard after = Ui.clipboard s.
Proof.
  cbv zeta.
  pose proof (checkHealth_is_healthy transport (IdentifyPage.env (Ui.page s)))
    as Hb.
  set (o := fst (transport Api.health_request
                   (Api.net (IdentifyPage.env (Ui.page s))))) in *.
  exists (Spec.healthy o). split.
  - destruct o as [r | e]; [ rewrite healthy_status | cbn ].
    + rewrite orb_true_iff, !Z.eqb_eq. split.
      * intros H. exists r. auto.
      * intros [r' [E H]]. now inversion E; subst.
    + split; [ discriminate | intros [r [E _]]; discriminate ].
  - unfold Ui.performHealthCheck. rewrite try_catch_run.
    rewrite (performHealthCheck_try_run s _ Hb). cbn [fst snd].
    cbn [Ui.isHealthy Ui.page Ui.isExpanded Ui.form Ui.clipboard
         IdentifyPage.toasts IdentifyPage.env IdentifyPage.response
         IdentifyPage.isLoading].
    unfold Ui.health_badge. cbn [Ui.isHealthy].
    repeat split.
    + destruct (Spec.healthy o); reflexivity.
    + rewrite checkHealth_run. fold o. destruct o; reflexivity.
Qed.

End UiFacts.

(** ** pages/IdentifyPage.tsx: what [onSubmit] leaves behind *)

Section OnSubmit.

Context {T : Type}.
Variable transport : Request -> T -> Outcome Response * T.

Lemma lookup_optional_string (k : string) (props : list (string * Value)) :
  forallb (fun kv => Api.optional_string (snd kv)) props = true ->
  Api.optional_string (Js.lookup k props) = true.
Proof.
  induction props as [ | [k' v] props IH]; cbn [forallb Js.lookup snd];
    [ reflexivity | ].
  rewrite andb_true_iff. intros [Hv Hrest].
  destruct (String.eqb k' k); auto.
Qed.

Lemma IdentifyRequest_is_FormData (data : Value) :
  Api.IdentifyRequest data = true -> IdentifyPage.FormData data = true.
Proof.
  destruct data; try discriminate. intros Typed.
  pose proof (IdentifyRequest_fields _ Typed) as Fields.
  unfold IdentifyPage.FormData, Get.
  now rewrite !lookup_optional_string.
Qed.

Lemma lookup_present (k s : string) (props : list (string * Value)) :
  Js.lookup k props = VString s ->
  In (k, s) (Spec.present_fields (VObject props)).
Proof.
  cbn [Spec.present_fields].
  induction props as [ | [k' v] props IH]; cbn [Js.lookup flat_map fst snd];
    [ discriminate | ].
  destruct (String.eqb k' k) eqn:E; intros Found; apply in_or_app.
  - left. apply String.eqb_eq in E. rewrite Found, E. now left.
  - right. auto.
Qed.


(** X7: for form data with a field, [onSubmit] ends with the loading flag
    off; when the answer has a status in 200..299 and a body that parses,
    the page holds the parsed body and the toast reads
    [Contact identified]; in every other case the response held before
    is cleared and the toast reads [Failed to identify contact]. *)
Theorem onSubmit_shows_outcome (data : Value) (p : IdentifyPage.Page T) :
  IdentifyPage.FormData data = true ->
  Spec.has_field data = true ->
  let o := fst (transport (Api.identify_request data)
                  (Api.net (IdentifyPage.env p))) in
  let after := snd (IdentifyPage.onSubmit transport data p) in
  IdentifyPage.isLoading after = false
  /\ (forall r v,
        o = Fulfilled r -> 200 <= status r <= 299 -> json r = Fulfilled v ->
        IdentifyPage.response after = Some v
        /\ IdentifyPage.toasts after
           = (IdentifyPage.toasts p
                ++ [(IdentifyPage.success, "Contact identified")])%list)
  /\ (~ (exists r v, o = Fulfilled r /\ 200 <= status r <= 299
                     /\ json r = Fulfilled v) ->
      IdentifyPage.response after = None
      /\ IdentifyPage.toasts after
         = (IdentifyPage.toasts p
              ++ [(IdentifyPage.error, "Failed to identify contact")])%list).
Proof.
  intros Typed Has. cbv zeta.
  pose proof (guard_is_no_field _ Typed) as Guard.
  rewrite Has in Guard. cbn [negb] in Guard.
  rewrite (onSubmit_past_guard _ _ _ Guard). cbn [snd].
  rewrite identified_run. unfold Spec.identified.
  destruct (fst (transport (Api.identify_request data)
                   (Api.net (IdentifyPage.env p)))) as [r | e].
  - rewrite <- (negb_involutive ((status r <? 200) || (299 <? status r))),
      <- ok_range.
    destruct (ok r) eqn:Ok; cbn [negb].
    + apply ok_iff in Ok.
      destruct (json r) as [v | e] eqn:J; cbn;
        (split; [ reflexivity | split ]).
      * intros r' v' E _ J'. inversion E; subst r'. rewrite J in J'.
        inversion J'; subst v'. auto.
      * intros No. exfalso. apply No. eauto.
      * intros r' v' E _ J'. inversion E; subst r'. rewrite J in J'.
        discriminate.
      * auto.
    + apply not_ok_iff in Ok. cbn. split; [ reflexivity | split ].
      * intros r' v' E In. inversion E; subst r'. lia.
      * auto.
  - cbn. split; [ reflexivity | split ]; [ discriminate | auto ].
Qed.

(** X8: an input left empty is not left out of the request: every field
    of the form data that is a string, the empty string included, is in
    the body that [onSubmit] sends, under its name and with its value. *)
Theorem onSubmit_sends_every_string_field
  (data : Value) (p : IdentifyPage.Page T) (k s : string) :
  Api.IdentifyRequest data = true ->
  Spec.has_field data = true ->
  Get data k = VString s ->
  exists (rq : Request) (text : string) (fields : list (string * string)),
    Api.sent (IdentifyPage.env (snd (IdentifyPage.onSubmit transport data p)))
    = (Api.sent (IdentifyPage.env p) ++ [rq])%list
    /\ body rq = Some text
    /\ Spec.read_request text = Some fields
    /\ In (k, s) fields.
Proof.
  intros Typed Has Found.
  pose proof (guard_is_no_field _ (IdentifyRequest_is_FormData _ Typed))
    as Guard.
  rewrite Has in Guard. cbn [negb] in Guard.
  exists (Api.identify_request data), (Spec.request_json data),
    (Spec.present_fields data).
  split; [ | split; [ | split ] ].
  - rewrite (onSubmit_past_guard _ _ _ Guard). cbn [snd].
    rewrite identifyContact_run, identifyContact_try_run. cbn [fst snd].
    repeat match goal with
           | |- context [match ?o with _ => _ end] => destruct o
           end; reflexivity.
  - now apply stringify_IdentifyRequest.
  - destruct data; try discriminate. apply read_request_json.
  - destruct data; try discriminate. now apply lookup_present.
Qed.

End OnSubmit.

Lemma onSubmit_shows_outcome_witness :
  let data := VObject [("email", VString "a@x.com")] in
  let stale :=
    {| IdentifyPage.env := Mock.fresh tt;
       IdentifyPage.response := Some Mock.contact_body;
       IdentifyPage.isLoading := false;
       IdentifyPage.toasts := [] |} in
  IdentifyPage.response
    (snd (IdentifyPage.onSubmit (Mock.answer 500) data stale)) = None
  /\ IdentifyPage.toasts
       (snd (IdentifyPage.onSubmit (Mock.answer 500) data stale))
     = [(IdentifyPage.error, "Failed to identify contact")].
Proof.
  cbv zeta.
  destruct (onSubmit_shows_outcome (Mock.answer 500)
              (VObject [("email", VString "a@x.com")])
              {| IdentifyPage.env := Mock.fresh tt;
                 IdentifyPage.response := Some Mock.contact_body;
                 IdentifyPage.isLoading := false;
                 IdentifyPage.toasts := [] |}
              eq_refl eq_refl) as [_ [_ Failed]].
  apply Failed. intros [r [v [E [In _]]]].
  inversion E; subst. cbn in In. lia.
Defined.

Lemma onSubmit_sends_every_string_field_witness :
  let data := VObject [("email", VString "");
                       ("phoneNumber", VString "123")] in
  exists (rq : Request) (text : string) (fields : list (string * string)),
    Api.sent (IdentifyPage.env
                (snd (IdentifyPage.onSubmit (Mock.answer 200) data
                        (Mock.fresh_page tt))))
    = [rq]
    /\ body rq = Some text
    /\ Spec.read_request text = Some fields
    /\ In ("email", "") fields.
Proof.
  cbv zeta.
  apply (onSubmit_sends_every_string_field (Mock.answer 200)
           (VObject [("email", VString ""); ("phoneNumber", VString "123")])
           (Mock.fresh_page tt) "email" "");
    reflexivity.
Defined.

(** ** pages/IdentifyPage.tsx: the response panel and its buttons *)

Section Panel.

Context {T C F : Type}.
Variable transport : Request -> T -> Outcome Response * T.
Variable writeText : string -> C -> Outcome unit * C.
Variable reset : F -> F.

(** Only [undefined] has no JSON text. *)
Lemma Serialize_defined (gap indent : string) (v : Value) :
  v <> VUndefined -> exists text, JsonText.Serialize gap indent v = Some text.
Proof. destruct v; cbn; eauto. congruence. Qed.

Lemma formatJson_truthy (v : Value) :
  ToBoolean v = true -> exists text, Ui.formatJson v = Some text.
Proof.
  intros Truthy. apply Serialize_defined. intros ->. discriminate.
Qed.

(** A [ContactResponse] is an object, so it is truthy. *)
Lemma ContactResponse_truthy (v : Value) :
  Spec.ContactResponse v = true -> ToBoolean v = true.
Proof.
  destruct v as [ | | b | n | s | items | props]; try discriminate.
  reflexivity.
Qed.

(** The page after a submit that succeeds. *)
Lemma onSubmit_success_run
  (data : Value) (p : IdentifyPage.Page T) (r : Response) (v : Value) :
  IdentifyPage.FormData data = true ->
  Spec.has_field data = true ->
  fst (transport (Api.identify_request data) (Api.net (IdentifyPage.env p)))
  = Fulfilled r ->
  200 <= status r <= 299 ->
  json r = Fulfilled v ->
  IdentifyPage.onSubmit transport data p
  = (Fulfilled tt,
     {| IdentifyPage.env :=
          snd (Api.identifyContact transport data (IdentifyPage.env p));
        IdentifyPage.response := Some v;
        IdentifyPage.isLoading := false;
        IdentifyPage.toasts :=
          (IdentifyPage.toasts p
             ++ [(IdentifyPage.success, "Contact identified")])%list |}).
Proof.
  intros Typed Has O In J.
  pose proof (guard_is_no_field _ Typed) as Guard.
  rewrite Has in Guard. cbn [negb] in Guard.
  rewrite (onSubmit_past_guard _ _ _ Guard). cbv zeta.
  rewrite identified_run, O. unfold Spec.identified.
  replace (status r <? 200) with false by (symmetry; apply Z.ltb_ge; lia).
  replace (299 <? status r) with false by (symmetry; apply Z.ltb_ge; lia).
  cbn [orb]. now rewrite J.
Qed.

(** X9: after a submit that succeeds the toast always reads
    [Contact identified], but the panel, the copy and expand buttons and
    the [Contact Found] badge appear only when the parsed body is truthy:
    for a body such as [null], [false], [0] or the empty string the
    placeholder stays. A body that is a [ContactResponse] is always
    shown. *)
Theorem onSubmit_success_shows_body_iff_truthy
  (data : Value) (s : Ui.Component T C F) (r : Response) (v : Value) :
  IdentifyPage.FormData data = true ->
  Spec.has_field data = true ->
  fst (transport (Api.identify_request data)
         (Api.net (IdentifyPage.env (Ui.page s)))) = Fulfilled r ->
  200 <= status r <= 299 ->
  json r = Fulfilled v ->
  let after := snd (Ui.onSubmit transport data s) in
  IdentifyPage.toasts (Ui.page after)
  = (IdentifyPage.toasts (Ui.page s)
       ++ [(IdentifyPage.success, "Contact identified")])%list
  /\ Ui.response_tools after = ToBoolean v
  /\ (ToBoolean v = false -> Ui.response_panel after = Ui.Placeholder)
  /\ (ToBoolean v = true ->
      exists text, Ui.formatJson v = Some text
                   /\ Ui.response_panel after = Ui.Formatted text)
  /\ (Spec.ContactResponse v = true -> Ui.response_tools after = true).
Proof.
  intros Typed Has O In J. cbv zeta.
  unfold Ui.onSubmit. rewrite on_page_run.
  rewrite (onSubmit_success_run _ _ _ _ Typed Has O In J). cbn [fst snd].
  unfold Ui.response_tools, Ui.response_panel, Ui.response_value.
  cbn [Ui.page IdentifyPage.response IdentifyPage.toasts].
  split; [ reflexivity | split; [ reflexivity | split; [ | split ] ] ].
  - intros ->. reflexivity.
  - intros Truthy. rewrite Truthy.
    destruct (formatJson_truthy _ Truthy) as [text Ht].
    exists text. now rewrite Ht.
  - apply ContactResponse_truthy.
Qed.

(** X10: [handleCopyResponse] never throws. With no response, or a falsy
    one, it does nothing at all. Otherwise it writes [formatJson] of the
    response, which is always a text, to the clipboard once and shows
    one toast: success when the write went through, failure when it was
    refused. *)
Theorem handleCopyResponse_writes_formatted_response
  (s : Ui.Component T C F) :
  let v := Ui.response_value s in
  let after := snd (Ui.handleCopyResponse (T := T) writeText s) in
  fst (Ui.handleCopyResponse (T := T) writeText s) = Fulfilled tt
  /\ (ToBoolean v = false -> after = s)
  /\ (ToBoolean v = true ->
      exists text,
        Ui.formatJson v = Some text
        /\ Ui.clipboard after = snd (writeText text (Ui.clipboard s))
        /\ IdentifyPage.toasts (Ui.page after)
           = (IdentifyPage.toasts (Ui.page s)
                ++ [match fst (writeText text (Ui.clipboard s)) with
                    | Fulfilled _ =>
                        (IdentifyPage.success, "Response copied to clipboard")
                    | Rejected _ =>
                        (IdentifyPage.error, "Failed to copy response")
                    end])%list
        /\ Ui.response_value after = v
        /\ Ui.isExpanded after = Ui.isExpanded s).
Proof.
  cbv zeta. unfold Ui.handleCopyResponse.
  destruct (ToBoolean (Ui.response_value s)) eqn:Truthy.
  - destruct (formatJson_truthy _ Truthy) as [text Ht]. rewrite Ht.
    cbn [Ui.as_text].
    rewrite try_catch_run, bind_run. unfold Ui.clipboard_writeText.
    destruct (writeText text (Ui.clipboard s)) as [[[] | e] c] eqn:W;
      unfold Ui.on_page, IdentifyPage.toast, Ui.response_value; cbn;
      (split; [ reflexivity | split; [ discriminate | ] ]);
      intros _; exists text; rewrite W; repeat split.
  - cbn. split; [ reflexivity | split; [ reflexivity | discriminate ] ].
Qed.

(** X11: [handleClear] empties the panel: afterwards the placeholder is
    shown, the buttons are gone and the copy handler does nothing. It
    does not collapse an expanded layout, and it leaves the health badge
    and the toasts alone. *)
Theorem handleClear_empties_panel (s : Ui.Component T C F) :
  let after := snd (Ui.handleClear (T := T) (C := C) reset s) in
  fst (Ui.handleClear (T := T) (C := C) reset s) = Fulfilled tt
  /\ Ui.response_panel after = Ui.Placeholder
  /\ Ui.response_tools after = false
  /\ Ui.handleCopyResponse writeText after = (Fulfilled tt, after)
  /\ Ui.form after = reset (Ui.form s)
  /\ Ui.grid_columns after = Ui.grid_columns s
  /\ Ui.health_badge after = Ui.health_badge s
  /\ IdentifyPage.toasts (Ui.page after) = IdentifyPage.toasts (Ui.page s).
Proof.
  cbv zeta. unfold Ui.handleClear. rewrite bind_run.
  unfold Ui.form_reset. cbn [fst snd]. rewrite on_page_run.
  cbn [fst snd IdentifyPage.setResponse Ui.page].
  repeat split.
Qed.

(** X12: [toggleExpanded] switches the layout between one column and
    two and touches nothing else; pressing it twice gives back the state
    it started from. *)
Theorem toggleExpanded_twice (s : Ui.Component T C F) :
  let once := snd (Ui.toggleExpanded s) in
  Ui.grid_columns once = (3 - Ui.grid_columns s)%nat
  /\ Ui.page once = Ui.page s
  /\ Ui.isHealthy once = Ui.isHealthy s
  /\ snd (Ui.toggleExpanded once) = s.
Proof.
  cbv zeta. destruct s as [p h e f c].
  unfold Ui.toggleExpanded, Ui.setIsExpanded, Ui.grid_columns.
  cbn [snd Ui.page Ui.isHealthy Ui.isExpanded Ui.form Ui.clipboard].
  rewrite negb_involutive. destruct e; repeat split.
Qed.

End Panel.

Lemma onSubmit_success_shows_body_iff_truthy_witness :
  let transport :=
    Mock.always (Fulfilled {| status := 200; json := Fulfilled VNull |}) in
  let after :=
    snd (Ui.onSubmit transport (VObject [("email", VString "a@x.com")])
           (MockUi.mounted tt)) in
  IdentifyPage.toasts (Ui.page after)
  = [(IdentifyPage.success, "Contact identified")]
  /\ Ui.response_tools after = false
  /\ Ui.response_panel after = Ui.Placeholder.
Proof.
  cbv zeta.
  assert (In : 200 <= status {| status := 200; json := Fulfilled VNull |}
               <= 299) by (cbn; lia).
  destruct (onSubmit_success_shows_body_iff_truthy
              (C := option string) (F := string * string)
              (Mock.always
                 (Fulfilled {| status := 200; json := Fulfilled VNull |}))
              (VObject [("email", VString "a@x.com")])
              (MockUi.mounted tt)
              {| status := 200; json := Fulfilled VNull |} VNull
              eq_refl eq_refl eq_refl In eq_refl)
    as [Toast [Tools [Hidden _]]].
  split; [ exact Toast | split; [ exact Tools | exact (Hidden eq_refl) ] ].
Defined.

(** ** The entry point: every location leads to the page *)

Section Routes.

Variable matchPath : string -> string -> bool.

(** X13: provided the router takes [/identify] for itself and [*] for
    every location, any location ends at the identify page after at most
    one redirect, either where it was or at [/identify]; no location
    renders nothing and none redirects for ever. *)
Theorem every_location_renders_the_page (pathname : string) :
  matchPath "/identify" "/identify" = true ->
  (forall p, matchPath "*" p = true) ->
  exists landing : string,
    Main.settle matchPath 1 pathname = Some landing
    /\ Main.pick matchPath Main.routes landing = Some Main.IdentifyPageElement
    /\ (landing = pathname \/ landing = "/identify").
Proof.
  intros Own Splat.
  destruct (matchPath "/identify" pathname) eqn:Here.
  - exists pathname. cbn. rewrite Here. auto.
  - exists "/identify". cbn. rewrite Here, Splat, Own. auto.
Qed.

End Routes.

Lemma every_location_renders_the_page_witness :
  exists landing : string,
    Main.settle MockUi.exact_or_splat 1 "/nowhere" = Some landing
    /\ Main.pick MockUi.exact_or_splat Main.routes landing
       = Some Main.IdentifyPageElement
    /\ (landing = "/nowhere" \/ landing = "/identify").
Proof.
  apply (every_location_renders_the_page MockUi.exact_or_splat "/nowhere");
    [ reflexivity | intros p; reflexivity ].
Defined.

(** ** pages/IdentifyPage.tsx: [formatJson] *)

Section FormatJson.

Import JsonText.

Lemma shrinks_nil : shrinks "" "".
Proof. intros rest. reflexivity. Qed.

Lemma shrinks_app (t1 s1 t2 s2 : string) :
  shrinks t1 s1 -> shrinks t2 s2 -> shrinks (t1 ++ t2) (s1 ++ s2).
Proof.
  intros H1 H2 rest. now rewrite !append_assoc, H1, H2.
Qed.

Lemma shrinks_plain (t : string) :
  all_chars plain_char t = true -> shrinks t t.
Proof.
  induction t as [ | c t IH]; cbn [all_chars]; [ intros _ rest; reflexivity | ].
  rewrite andb_true_iff. unfold plain_char at 1.
  rewrite andb_true_iff, !negb_true_iff.
  intros [[NoSpace NoQuote] Rest] rest. cbn [append strip].
  now rewrite NoQuote, NoSpace, (IH Rest).
Qed.

Lemma shrinks_spaces (w : string) :
  all_chars is_space w = true -> shrinks w "".
Proof.
  induction w as [ | c w IH]; cbn [all_chars]; [ intros _ rest; reflexivity | ].
  rewrite andb_true_iff. intros [Space Rest] rest. cbn [append strip].
  assert (NoQuote : Ascii.eqb c dquote = false).
  { destruct (Ascii.eqb_spec c dquote) as [-> | ]; [ discriminate | reflexivity ]. }
  rewrite NoQuote, Space. apply (IH Rest).
Qed.

(** Inside a literal a quoted character is kept and does not end it. *)
Lemma strip_quote_char (c : ascii) (tail : string) :
  strip true false (quote_char c ++ tail)
  = (quote_char c ++ strip true false tail)%string.
Proof.
  destruct c as [[|] [|] [|] [|] [|] [|] [|] [|]]; reflexivity.
Qed.

Lemma strip_quote_chars (s rest : string) :
  strip true false (quote_chars s ++ String dquote rest)
  = (quote_chars s ++ String dquote (strip false false rest))%string.
Proof.
  induction s as [ | c s IH]; [ reflexivity | ].
  cbn [quote_chars]. now rewrite !append_assoc, strip_quote_char, IH.
Qed.

Lemma shrinks_quoted (s : string) :
  shrinks (QuoteJSONString s) (QuoteJSONString s).
Proof.
  intros rest. unfold QuoteJSONString. cbn [append strip].
  change (Ascii.eqb dquote dquote) with true. cbn iota.
  rewrite !append_assoc. cbn [append]. now rewrite strip_quote_chars.
Qed.

(** A number is written with digits and a sign only. *)
Lemma digits_plain (d : Decimal.uint) :
  all_chars plain_char (NilEmpty.string_of_uint d) = true.
Proof. induction d; cbn; auto. Qed.

Lemma Number_toString_plain (n : Z) :
  all_chars plain_char (Number_toString n) = true.
Proof.
  unfold Number_toString. destruct (Z.to_int n) as [d | d]; cbn;
    apply digits_plain.
Qed.

(** Joining parts that shrink, with a separator that shrinks to a comma. *)
Lemma shrinks_join (sep : string) (texts shorts : list string) :
  shrinks sep "," ->
  Forall2 shrinks texts shorts ->
  shrinks (join sep texts) (join "," shorts).
Proof.
  intros Sep All. induction All as [ | t s texts shorts Hts All IH];
    [ apply shrinks_nil | ].
  destruct All as [ | t' s' texts shorts Hts' All]; [ exact Hts | ].
  change (join sep (t :: t' :: texts))
    with (t ++ sep ++ join sep (t' :: texts))%string.
  change (join "," (s :: s' :: shorts))
    with (s ++ "," ++ join "," (s' :: shorts))%string.
  auto using shrinks_app.
Qed.

Lemma shrinks_wrap (open close gap stepback : string)
  (texts shorts : list string) :
  all_chars plain_char open = true ->
  all_chars plain_char close = true ->
  all_chars is_space gap = true ->
  all_chars is_space stepback = true ->
  Forall2 shrinks texts shorts ->
  shrinks (wrap open close gap stepback texts)
          (open ++ join "," shorts ++ close).
Proof.
  intros Open Close Gap Step All.
  assert (Nl : shrinks newline "") by (apply shrinks_spaces; reflexivity).
  assert (Ind : shrinks (stepback ++ gap) "").
  { change "" with ("" ++ "")%string.
    apply shrinks_app; now apply shrinks_spaces. }
  assert (Sep : shrinks ("," ++ newline ++ stepback ++ gap) ",").
  { change "," with ("," ++ "" ++ "")%string at 2.
    repeat apply shrinks_app; auto. now apply shrinks_plain. }
  unfold wrap. destruct All as [ | t s texts shorts Hts All].
  - apply shrinks_app; now apply shrinks_plain.
  - destruct (is_empty gap).
    + repeat apply shrinks_app; try now apply shrinks_plain.
      apply shrinks_join; [ now apply shrinks_plain | now constructor ].
    + cbv zeta.
      change (open ++ join "," (s :: shorts) ++ close)%string
        with (open ++ "" ++ "" ++ join "," (s :: shorts) ++ "" ++ ""
                ++ close)%string.
      repeat apply shrinks_app; try (now apply shrinks_plain);
        try (now apply shrinks_spaces); auto.
      apply shrinks_join; [ exact Sep | now constructor ].
Qed.

(** A member: the name, a colon, a space when there is a gap, the
    value. *)
Lemma shrinks_member (gap k text short : string) :
  shrinks text short ->
  shrinks (QuoteJSONString k ++ ":"
             ++ (if is_empty gap then "" else " ") ++ text)
          (QuoteJSONString k ++ ":" ++ short).
Proof.
  intros H. apply shrinks_app; [ apply shrinks_quoted | ].
  apply shrinks_app; [ now apply shrinks_plain | ].
  change short with ("" ++ short)%string.
  apply shrinks_app; [ | exact H ].
  destruct (is_empty gap); [ apply shrinks_nil | now apply shrinks_spaces ].
Qed.

(** Induction on values that reaches the items of arrays and the values
    of properties. *)
Lemma Value_nested_ind (P : Value -> Prop) :
  P VUndefined -> P VNull ->
  (forall b, P (VBoolean b)) ->
  (forall n, P (VNumber n)) ->
  (forall s, P (VString s)) ->
  (forall items, Forall P items -> P (VArray items)) ->
  (forall props, Forall (fun kv => P (snd kv)) props -> P (VObject props)) ->
  forall v, P v.
Proof.
  intros Hu Hn Hb Hz Hs Ha Ho.
  fix IH 1.
  intros [ | | b | n | s | items | props];
    [ exact Hu | exact Hn | apply Hb | apply Hz | apply Hs | | ].
  - apply Ha. induction items as [ | x items IHitems]; constructor;
      [ apply IH | exact IHitems ].
  - apply Ho. induction props as [ | [k x] props IHprops]; constructor;
      [ apply IH | exact IHprops ].
Qed.

Lemma Serialize_agrees (gap : string) :
  all_chars is_space gap = true ->
  forall (v : Value) (indent : string),
    all_chars is_space indent = true -> agree gap indent v.
Proof.
  intros Gap v. induction v as [ | | b | n | s | items IH | props IH]
    using Value_nested_ind; intros indent Ind; unfold agree;
    cbn [Serialize SerializeJSONProperty].
  - exact I.
  - now apply shrinks_plain.
  - destruct b; now apply shrinks_plain.
  - apply shrinks_plain, Number_toString_plain.
  - apply shrinks_quoted.
  - apply shrinks_wrap; auto.
    assert (Inner : all_chars is_space (indent ++ gap) = true).
    { clear - Gap Ind. induction indent as [ | c indent IHi]; cbn in *; auto.
      apply andb_true_iff in Ind. destruct Ind as [Hc Hrest].
      now rewrite Hc, IHi. }
    induction IH as [ | x items Hx _ IHitems]; cbn [map]; constructor; auto.
    specialize (Hx _ Inner). unfold agree in Hx.
    destruct (Serialize gap (indent ++ gap) x), (SerializeJSONProperty x);
      try contradiction; [ exact Hx | now apply shrinks_plain ].
  - apply shrinks_wrap; auto.
    assert (Inner : all_chars is_space (indent ++ gap) = true).
    { clear - Gap Ind. induction indent as [ | c indent IHi]; cbn in *; auto.
      apply andb_true_iff in Ind. destruct Ind as [Hc Hrest].
      now rewrite Hc, IHi. }
    induction IH as [ | [k x] props Hx _ IHprops]; cbn [flat_map];
      [ constructor | ].
    cbn [fst snd] in *. specialize (Hx _ Inner). unfold agree in Hx.
    destruct (Serialize gap (indent ++ gap) x), (SerializeJSONProperty x);
      try contradiction; cbn [app]; [ constructor; auto | exact IHprops ].
    now apply shrinks_member.
Qed.

Lemma append_empty_r (s : string) : (s ++ "")%string = s.
Proof. induction s as [ | c s IH]; cbn; [ reflexivity | now rewrite IH ]. Qed.

(** X14: [formatJson] only lays the JSON text out: taking the white
    space outside string literals out of [formatJson v] gives exactly
    [JSON.stringify v], for every value, and [formatJson v] is missing
    only when that is. *)
Theorem formatJson_is_stringify_laid_out (v : Value) :
  option_map minify (Ui.formatJson v) = JSON_stringify v.
Proof.
  unfold Ui.formatJson, JSON_stringify_space, JSON_stringify.
  pose proof (Serialize_agrees (spaces (Nat.min 10 2)) eq_refl v "" eq_refl)
    as H.
  unfold agree in H.
  destruct (Serialize (spaces (Nat.min 10 2)) "" v) as [text | ],
    (SerializeJSONProperty v) as [short | ]; try contradiction;
    [ | reflexivity ].
  cbn [option_map]. unfold minify. specialize (H "").
  rewrite append_empty_r in H. rewrite H. cbn [strip].
  now rewrite append_empty_r.
Qed.

End FormatJson.
